(** * A shallow embedding of the ZVI frame-sequence reader (zvi_reader.py)

    The reader opens an OLE compound file, scans its stream listing for
    paths of the form Image/Item(n)/..., takes the largest n as the
    sequence length, and decodes stream Image/Item(j)/Contents into a
    16-bit little-endian pixel array that it rolls back by 162 samples.

    Conventions of the embedding:
    - Python strings are [string] (the stream names of the OLE library are
      byte strings, so [\d] ranges over the ASCII digits);
    - Python integers are [Z] (indices) and [N] (item numbers, samples);
    - a raised exception is the [Raise] outcome of the [IO] monad, whose
      state is the log of the calls made to the OLE library. *)

From Stdlib Require Import ZArith NArith Lia Bool List Ascii String.
From Stdlib Require Import Permutation DecimalString DecimalPos DecimalN Strings.Byte.
Import ListNotations.

Local Open Scope string_scope.
Local Open Scope list_scope.

(** ** Exceptions *)

(** The exceptions the reader can raise, one constructor per raising site.
    The names on the right are the ones the design document uses. *)
Inductive exn : Type :=
| IOError_open            (* OleFileIO(filename) fails:   ContainerOpenError *)
| IndexError              (* stream[0] / stream[1] / key out of range: IndexError *)
| ValueError_max_empty    (* max([]) :                    EmptyIndexError *)
| IOError_file_not_found  (* openstream on a missing path: MissingFrameError *)
| ValueError_not_enough_image_data (* Image.fromstring:   DecodeError *)
| ValueError_as_grey.     (* as_grey with process_func:   ConfigurationError *)

Inductive outcome (A : Type) : Type :=
| Return : A -> outcome A
| Raise : exn -> outcome A.
Arguments Return {A} _.
Arguments Raise {A} _.

Definition obind {A B} (o : outcome A) (k : A -> outcome B) : outcome B :=
  match o with
  | Return a => k a
  | Raise e => Raise e
  end.

(** ** Strings: the pattern [Item\((\d+)\)] and [int] *)

Module Str.

Definition is_digit (c : ascii) : bool :=
  let n := nat_of_ascii c in (48 <=? n)%nat && (n <=? 57)%nat.

Fixpoint all_digits (s : string) : bool :=
  match s with
  | EmptyString => true
  | String c s' => is_digit c && all_digits s'
  end.

(** [strip_prefix p s] is the rest of [s] after the literal [p]. *)
Fixpoint strip_prefix (p s : string) : option string :=
  match p with
  | EmptyString => Some s
  | String a p' =>
      match s with
      | EmptyString => None
      | String b s' => if Ascii.eqb a b then strip_prefix p' s' else None
      end
  end.

(** The greedy run [\d+], or rather [\d*]: the longest prefix of digits
    and what follows it. *)
Fixpoint span_digits (s : string) : string * string :=
  match s with
  | EmptyString => (EmptyString, EmptyString)
  | String c s' =>
      if is_digit c
      then let (ds, rest) := span_digits s' in (String c ds, rest)
      else (EmptyString, s)
  end.

(** [re.match('Item\((\d+)\)', s)], returning [m.group(1)].  [re.match]
    anchors the pattern at the start of [s] only.  The digit run is greedy;
    giving digits back cannot help, as the next character must be [)]. *)
Definition re_match_Item (s : string) : option string :=
  match strip_prefix "Item(" s with
  | None => None
  | Some r =>
      match span_digits r with
      | (EmptyString, _) => None
      | (ds, String c _) => if Ascii.eqb c ")" then Some ds else None
      | (_, EmptyString) => None
      end
  end.

Definition digit_val (c : ascii) : N := N_of_ascii c - 48.

Fixpoint int_acc (acc : N) (s : string) : N :=
  match s with
  | EmptyString => acc
  | String c s' => int_acc (10 * acc + digit_val c) s'
  end.

(** [int(s)] on a run of decimal digits. *)
Definition int (s : string) : N := int_acc 0 s.

(** [str(j)] / ['{0}'.format(j)] for a Python integer. *)
Definition str (j : Z) : string := NilZero.string_of_int (Z.to_int j).

End Str.

(** The regular expression, read declaratively: [s] starts with [Item(],
    a non-empty run [ds] of digits and [)]; [tail] is whatever follows. *)
Definition prefix_matches_Item (s ds : string) : Prop :=
  exists tail, s = ("Item(" ++ ds ++ ")" ++ tail)%string
               /\ ds <> "" /\ Str.all_digits ds = true.

(** The same pattern required to cover the whole of [s]. *)
Definition fully_matches_Item (s ds : string) : Prop :=
  s = ("Item(" ++ ds ++ ")")%string /\ ds <> "" /\ Str.all_digits ds = true.

(** ** The stream index (the loop of [ZVI.__init__]) *)

Definition path := list string.

(** One iteration of [for stream in self._streams], as a function of the
    table built so far.  [stream[0]] and [stream[1]] raise [IndexError]
    on a path that is too short. *)
Definition toc_step (toc : list N) (stream : path) : outcome (list N) :=
  match stream with
  | [] => Raise IndexError
  | s0 :: rest =>
      if negb (String.eqb s0 "Image") then Return toc          (* continue *)
      else match rest with
           | [] => Raise IndexError
           | s1 :: _ =>
               match Str.re_match_Item s1 with
               | None => Return toc                             (* continue *)
               | Some g1 => Return (toc ++ [Str.int g1])        (* append *)
               end
           end
  end.

Fixpoint toc_loop (toc : list N) (streams : list path) : outcome (list N) :=
  match streams with
  | [] => Return toc
  | stream :: streams' => obind (toc_step toc stream) (fun toc' => toc_loop toc' streams')
  end.

(** [max(l)] of a list of non-negative integers. *)
Definition py_max (l : list N) : outcome N :=
  match l with
  | [] => Raise ValueError_max_empty
  | x :: l' => Return (fold_left N.max l' x)
  end.

(** Lines 78-86: the table and the length. *)
Definition build_toc (streams : list path) : outcome (list N) := toc_loop [] streams.

Definition index_len (streams : list path) : outcome N :=
  obind (build_toc streams) py_max.

(** ** The OLE container and the [IO] monad *)

(** What the reader sees of an open compound file: the listing returned by
    [listdir()] and the bytes returned by [openstream(label).read()]
    ([None] when the library finds no such stream).  The reader relies on
    no relation between the two, so none is imposed here. *)
Record OleFile : Type := {
  ole_listdir : list path;
  ole_openstream : path -> option (list byte)
}.

(** The calls made to the OLE library, in the order they are made. *)
Inductive call : Type :=
| Call_OleFileIO (filename : string)
| Call_listdir
| Call_openstream (label : path).

(** The world: the files that can be opened (never written by the reader)
    and the log of library calls so far. *)
Record World : Type := {
  fs : string -> option OleFile;
  io_log : list call
}.

Definition logged (c : call) (w : World) : World :=
  {| fs := fs w; io_log := io_log w ++ [c] |}.

Definition IO (A : Type) : Type := World -> outcome A * World.

Definition ret {A} (a : A) : IO A := fun w => (Return a, w).

Definition raise {A} (e : exn) : IO A := fun w => (Raise e, w).

Definition bind {A B} (m : IO A) (k : A -> IO B) : IO B :=
  fun w => match m w with
           | (Return a, w') => k a w'
           | (Raise e, w') => (Raise e, w')
           end.

Definition lift {A} (o : outcome A) : IO A := fun w => (o, w).

Notation "x <- m ;; k" := (bind m (fun x => k))
  (at level 61, m at next level, right associativity).

Definition OleFileIO (filename : string) : IO OleFile :=
  fun w => let w' := logged (Call_OleFileIO filename) w in
           match fs w filename with
           | Some ole => (Return ole, w')
           | None => (Raise IOError_open, w')
           end.

Definition listdir (ole : OleFile) : IO (list path) :=
  fun w => (Return (ole_listdir ole), logged Call_listdir w).

Definition openstream_read (ole : OleFile) (label : path) : IO (list byte) :=
  fun w => let w' := logged (Call_openstream label) w in
           match ole_openstream ole label with
           | Some data => (Return data, w')
           | None => (Raise IOError_file_not_found, w')
           end.

(** ** Pixel arrays: what the reader uses of PIL and numpy *)

Inductive dtype : Type := uint8 | uint16 | uint32 | uint64.

Definition dtype_bits (t : dtype) : N :=
  match t with uint8 => 8 | uint16 => 16 | uint32 => 32 | uint64 => 64 end%N.

(** Conversion of a non-negative sample to an unsigned dtype wraps. *)
Definition cast (t : dtype) (v : N) : N := (v mod 2 ^ dtype_bits t)%N.

(** A two-dimensional array: [nd_shape] is numpy's [(rows, columns)] and
    [nd_data] the samples in row-major order. *)
Record ndarray : Type := {
  nd_shape : nat * nat;
  nd_dtype : dtype;
  nd_data : list N
}.

(** A PIL image of mode [I;16L]: [im_size] is PIL's [(width, height)]. *)
Record PILImage : Type := {
  im_size : nat * nat;
  im_pixels : list N
}.

(** Consecutive byte pairs as 16-bit little-endian unsigned samples. *)
Fixpoint unpack_u16le (bs : list byte) : list N :=
  match bs with
  | lo :: hi :: rest => (Byte.to_N lo + 256 * Byte.to_N hi)%N :: unpack_u16le rest
  | _ => []
  end.

(** [Image.fromstring('I;16L', size, data)]: the raw decoder fills
    [width * height] samples row by row and complains when the data run
    out first; bytes beyond the image are not looked at. *)
Definition Image_fromstring_I16L (size : nat * nat) (data : list byte) : outcome PILImage :=
  let need := 2 * (fst size * snd size) in
  if (List.length data <? need)%nat then Raise ValueError_not_enough_image_data
  else Return {| im_size := size; im_pixels := unpack_u16le (firstn need data) |}.

(** [np.asarray(img, dtype=t)]: the array of a [(width, height)] image has
    shape [(height, width)]. *)
Definition np_asarray (img : PILImage) (t : dtype) : ndarray :=
  {| nd_shape := (snd (im_size img), fst (im_size img));
     nd_dtype := t;
     nd_data := map (cast t) (im_pixels img) |}.

(** [np.roll] on the flattened samples: with [n] samples and
    [s = shift % n], the last [s] samples come first. *)
Definition roll {A} (x : list A) (shift : Z) : list A :=
  let n := List.length x in
  if (n =? 0)%nat then x
  else let s := Z.to_nat (shift mod Z.of_nat n) in
       skipn (n - s) x ++ firstn (n - s) x.

(** [np.roll(a, shift)] without an axis: roll the flattened array and give
    it the shape of [a] again. *)
Definition np_roll (a : ndarray) (shift : Z) : ndarray :=
  {| nd_shape := nd_shape a; nd_dtype := nd_dtype a; nd_data := roll (nd_data a) shift |}.

Record Frame : Type := {
  frame_arr : ndarray;
  frame_no : Z
}.

(** ** The base class *)

(** Modelled from the spec: [_validate_process_func] and [_as_grey] are
    methods of the base class FramesSequence, which is not in the
    repository source.  The design document: the processing transform is
    the identity by default; at most one of the processing transform and
    the greyscale flag may be configured, and supplying both fails with
    ConfigurationError; greyscale conversion does not apply to the
    single-channel frames decoded here. *)
Definition _validate_process_func (process_func : option (ndarray -> ndarray))
  : outcome (ndarray -> ndarray) :=
  match process_func with
  | None => Return (fun img => img)
  | Some f => Return f
  end.

Definition _as_grey (as_grey : bool) (process_func : option (ndarray -> ndarray))
  : outcome unit :=
  if as_grey
  then match process_func with
       | Some _ => Raise ValueError_as_grey
       | None => Return tt
       end
  else Return tt.

(** ** The class [ZVI] *)

Module ZVI.

Record t : Type := {
  _filename : string;
  _ole : OleFile;
  _streams : list path;
  _dtype : dtype;
  _im_sz : nat * nat;
  _toc : list N;
  _len : N;
  process_func : ndarray -> ndarray
}.

(** [ZVI.__init__(filename, shape, process_func, dtype, as_grey)].  The
    argument [dtype] is not used. *)
Definition __init__ (filename : string) (shape : nat * nat)
    (process_func : option (ndarray -> ndarray)) (dtype : option dtype)
    (as_grey : bool) : IO t :=
  ole <- OleFileIO filename ;;
  streams <- listdir ole ;;
  toc <- lift (toc_loop [] streams) ;;
  len <- lift (py_max toc) ;;
  pf <- lift (_validate_process_func process_func) ;;
  _ <- lift (_as_grey as_grey process_func) ;;
  ret {| _filename := filename; _ole := ole; _streams := streams;
         _dtype := uint16; _im_sz := shape; _toc := toc; _len := len;
         process_func := pf |}.

Definition stream_label (j : Z) : path :=
  ["Image"; ("Item(" ++ Str.str j ++ ")")%string; "Contents"].

Definition get_frame (self : t) (j : Z) : IO Frame :=
  data <- openstream_read (_ole self) (stream_label j) ;;
  img <- lift (Image_fromstring_I16L (_im_sz self) data) ;;
  let arr := np_roll (np_asarray img (_dtype self)) (-162) in
  ret {| frame_arr := process_func self arr; frame_no := j |}.

Definition pixel_type (self : t) : dtype := _dtype self.

Definition frame_shape (self : t) : nat * nat := _im_sz self.

Definition __len__ (self : t) : N := _len self.

End ZVI.

(** ** Indexed retrieval *)

(** Modelled from the spec: integer indexing is inherited from the base
    class FramesSequence, which is not in the repository source.  The
    design document: [get(j)] fails with IndexError if [j] is negative
    beyond the negative-indexing convention (negative indices count from
    the end) or [j >= length] after normalization; otherwise it delegates
    to the frame decoder, which applies the processing transform and tags
    the result with the frame number. *)
Definition get (self : ZVI.t) (j : Z) : IO Frame :=
  let len := Z.of_N (ZVI.__len__ self) in
  if ((j <? - len) || (len <=? j))%Z then raise IndexError
  else ZVI.get_frame self (if (j <? 0)%Z then (len + j)%Z else j).

(** ** Derived notions used in the statements *)

(** The item number a path contributes to the table, if any. *)
Definition item_of (stream : path) : option N :=
  match stream with
  | s0 :: s1 :: _ =>
      if String.eqb s0 "Image" then option_map Str.int (Str.re_match_Item s1) else None
  | _ => None
  end.

(** A path the loop body can inspect: it has a first component, and a
    second one when the first is [Image]. *)
Definition inspectable (stream : path) : bool :=
  match stream with
  | [] => false
  | s0 :: rest => negb (String.eqb s0 "Image") || negb (Nat.eqb (List.length rest) 0)
  end.

(** A path is recognized as the frame [n]. *)
Definition recognized (stream : path) (n : N) : Prop :=
  exists s1 rest ds,
    stream = "Image" :: s1 :: rest /\ prefix_matches_Item s1 ds /\ n = Str.int ds.

Definition items_of (streams : list path) : list N :=
  flat_map (fun p => match item_of p with Some n => [n] | None => [] end) streams.

(** The largest element of a list, 0 for the empty list. *)
Definition lmax (l : list N) : N := fold_right N.max 0%N l.

(** The world after the two calls the constructor makes. *)
Definition opened (filename : string) (w : World) : World :=
  logged Call_listdir (logged (Call_OleFileIO filename) w).

(** ** Example containers *)

Fixpoint path_eqb (p q : path) : bool :=
  match p, q with
  | [], [] => true
  | a :: p', b :: q' => String.eqb a b && path_eqb p' q'
  | _, _ => false
  end.

(** A container given by its streams, in listing order. *)
Definition ole_of_streams (entries : list (path * list byte)) : OleFile :=
  {| ole_listdir := map fst entries;
     ole_openstream := fun label =>
       option_map snd (find (fun e => path_eqb (fst e) label) entries) |}.

(** Frames 0, 1 and 3 of two samples each, no frame 2, and two streams
    that are not frames. *)
Definition gap_ole : OleFile :=
  ole_of_streams
    [ (["Image"; "Contents"], [x2a]);
      (["Image"; "Item(0)"; "Contents"], [x01; x00; x02; x00]);
      (["Image"; "Item(1)"; "Contents"], [x03; x00; x04; x01]);
      (["Image"; "Item(3)"; "Contents"], [xff; xff; x00; x80; x07]);
      (["Thumbnail"], []) ].

(** The same streams listed in another order. *)
Definition gap_ole_shuffled : OleFile :=
  ole_of_streams
    [ (["Image"; "Item(3)"; "Contents"], [xff; xff; x00; x80; x07]);
      (["Thumbnail"], []);
      (["Image"; "Item(1)"; "Contents"], [x03; x00; x04; x01]);
      (["Image"; "Contents"], [x2a]);
      (["Image"; "Item(0)"; "Contents"], [x01; x00; x02; x00]) ].

(** A container without frames. *)
Definition no_frames_ole : OleFile :=
  ole_of_streams [ (["Image"; "Contents"], [x2a]); (["Thumbnail"], []) ].

(** A container whose second component carries text after [Item(3)]. *)
Definition trailing_ole : OleFile :=
  ole_of_streams [ (["Image"; "Item(3)x"; "Contents"], [x01; x00; x02; x00]) ].

Definition example_fs (filename : string) : option OleFile :=
  if String.eqb filename "gap.zvi" then Some gap_ole
  else if String.eqb filename "shuffled.zvi" then Some gap_ole_shuffled
  else if String.eqb filename "empty.zvi" then Some no_frames_ole
  else if String.eqb filename "trailing.zvi" then Some trailing_ole
  else None.

(** The world before any call. *)
Definition world0 : World := {| fs := example_fs; io_log := [] |}.

(** The sequence [ZVI('gap.zvi', (2, 1))]. *)
Definition gap_zvi : ZVI.t :=
  {| ZVI._filename := "gap.zvi"; ZVI._ole := gap_ole;
     ZVI._streams := ole_listdir gap_ole;
     ZVI._dtype := uint16; ZVI._im_sz := (2, 1);
     ZVI._toc := [0; 1; 3]%N; ZVI._len := 3%N;
     ZVI.process_func := fun img => img |}.

(** The same container read with the shape [(3, 1)], too large for its
    streams. *)
Definition gap_zvi_wide : ZVI.t :=
  {| ZVI._filename := "gap.zvi"; ZVI._ole := gap_ole;
     ZVI._streams := ole_listdir gap_ole;
     ZVI._dtype := uint16; ZVI._im_sz := (3, 1);
     ZVI._toc := [0; 1; 3]%N; ZVI._len := 3%N;
     ZVI.process_func := fun img => img |}.

(** A world whose only container lists a stream named [Image] at the top
    level, after a frame. *)
Definition short_path_world : World :=
  {| fs := fun _ => Some (ole_of_streams
                            [ (["Image"; "Item(0)"; "Contents"], []);
                              (["Image"], []) ]);
     io_log := [] |}.

Definition negate (a : ndarray) : ndarray :=
  {| nd_shape := nd_shape a; nd_dtype := nd_dtype a;
     nd_data := map (fun v => (65535 - v)%N) (nd_data a) |}.

(** Frames 0, 1 and 2, numbered without a gap and listed out of order,
    with a world in which every file name opens that container. *)
Definition contiguous_ole : OleFile :=
  ole_of_streams
    [ (["Image"; "Item(1)"; "Contents"], [x03; x00; x04; x01]);
      (["Image"; "Item(0)"; "Contents"], [x01; x00; x02; x00]);
      (["Image"; "Item(2)"; "Contents"], [x05; x00; x06; x00]) ].

Definition contiguous_world : World :=
  {| fs := fun _ => Some contiguous_ole; io_log := [] |}.

Definition contiguous_zvi : ZVI.t :=
  {| ZVI._filename := "three.zvi"; ZVI._ole := contiguous_ole;
     ZVI._streams := ole_listdir contiguous_ole;
     ZVI._dtype := uint16; ZVI._im_sz := (2, 1);
     ZVI._toc := [1; 0; 2]%N; ZVI._len := 2%N;
     ZVI.process_func := fun img => img |}.

(** The sequence [ZVI('gap.zvi', (2, 1), process_func=negate)]. *)
Definition gap_zvi_negated : ZVI.t :=
  {| ZVI._filename := "gap.zvi"; ZVI._ole := gap_ole;
     ZVI._streams := ole_listdir gap_ole;
     ZVI._dtype := uint16; ZVI._im_sz := (2, 1);
     ZVI._toc := [0; 1; 3]%N; ZVI._len := 3%N;
     ZVI.process_func := negate |}.

(** ** The display text *)



(** A container whose only stream is named [Image], at the top level, and
    a world in which every file name opens it. *)
Definition image_only_ole : OleFile := ole_of_streams [ (["Image"], [x2a]) ].

Definition image_only_world : World :=
  {| fs := fun _ => Some image_only_ole; io_log := [] |}.

(** * Properties *)

(** ** The pattern *)

Section Pattern.

Lemma strip_prefix_spec (p s r : string) :
  Str.strip_prefix p s = Some r <-> s = (p ++ r)%string.
Proof.
  revert s; induction p as [|a p IH]; intros s; simpl.
  - split; [intros [= ->] | intros ->]; reflexivity.
  - destruct s as [|b s]; [split; discriminate|].
    destruct (Ascii.eqb_spec a b) as [->|Hab].
    + rewrite IH. split; [intros ->; reflexivity | intros [= ->]; reflexivity].
    + split; [discriminate | intros [= Hb _]; congruence].
Qed.

Lemma span_digits_spec (s ds rest : string) :
  Str.span_digits s = (ds, rest) ->
  s = (ds ++ rest)%string /\ Str.all_digits ds = true.
Proof.
  revert ds rest; induction s as [|c s IH]; intros ds rest; simpl.
  - intros [= <- <-]; auto.
  - destruct (Str.is_digit c) eqn:Hc.
    + destruct (Str.span_digits s) as [ds' rest'].
      intros [= <- <-]. destruct (IH _ _ eq_refl) as [-> Hd].
      simpl. rewrite Hc, Hd. auto.
    + intros [= <- <-]; auto.
Qed.

Lemma span_digits_app (ds : string) (c : ascii) (tail : string) :
  Str.all_digits ds = true -> Str.is_digit c = false ->
  Str.span_digits (ds ++ String c tail) = (ds, String c tail).
Proof.
  intros Hd Hc; induction ds as [|d ds IH]; simpl in *.
  - rewrite Hc; reflexivity.
  - apply andb_true_iff in Hd as [Hd1 Hd2].
    rewrite Hd1, (IH Hd2); reflexivity.
Qed.

(** [re_match_Item] is the regular expression anchored at the start. *)
Lemma re_match_Item_spec (s ds : string) :
  Str.re_match_Item s = Some ds <-> prefix_matches_Item s ds.
Proof.
  unfold Str.re_match_Item, prefix_matches_Item; split.
  - destruct (Str.strip_prefix "Item(" s) as [r|] eqn:Hp; [|discriminate].
    apply strip_prefix_spec in Hp.
    destruct (Str.span_digits r) as [ds' rest] eqn:Hs.
    apply span_digits_spec in Hs as [-> Hd].
    destruct ds' as [|d ds']; [discriminate|].
    destruct rest as [|c tail]; [discriminate|].
    destruct (Ascii.eqb_spec c ")") as [->|]; [|discriminate].
    intros [= <-]. exists tail. subst s. repeat split; auto; discriminate.
  - intros (tail & -> & Hne & Hd).
    change (Str.strip_prefix "Item(" ("Item(" ++ ds ++ ")" ++ tail))
      with (Some (ds ++ String ")" tail)%string).
    cbv beta iota.
    rewrite span_digits_app by (auto; reflexivity).
    destruct ds; [congruence | reflexivity].
Qed.

(** The captured group is determined by the string. *)
Lemma prefix_matches_Item_fun (s ds ds' : string) :
  prefix_matches_Item s ds -> prefix_matches_Item s ds' -> ds = ds'.
Proof.
  intros H H'. apply re_match_Item_spec in H, H'. congruence.
Qed.

Lemma fully_matches_prefix (s ds : string) :
  fully_matches_Item s ds -> prefix_matches_Item s ds.
Proof.
  intros (-> & Hne & Hd). exists ""%string. auto.
Qed.

End Pattern.

(** ** The stream index *)

Section Index.

Lemma item_of_recognized (p : path) (n : N) :
  item_of p = Some n <-> recognized p n.
Proof.
  unfold item_of, recognized; split.
  - destruct p as [|s0 [|s1 rest]]; try discriminate.
    destruct (String.eqb_spec s0 "Image") as [->|]; [|discriminate].
    destruct (Str.re_match_Item s1) as [ds|] eqn:Hm; [|discriminate].
    intros [= <-]. exists s1, rest, ds.
    apply re_match_Item_spec in Hm. auto.
  - intros (s1 & rest & ds & -> & Hm & ->).
    apply re_match_Item_spec in Hm. simpl. rewrite Hm. reflexivity.
Qed.

Lemma toc_step_closed (toc : list N) (p : path) :
  toc_step toc p =
  if inspectable p
  then Return (toc ++ match item_of p with Some n => [n] | None => [] end)
  else Raise IndexError.
Proof.
  destruct p as [|s0 [|s1 rest]]; simpl; auto.
  - destruct (String.eqb s0 "Image"); simpl; rewrite ?app_nil_r; reflexivity.
  - destruct (String.eqb s0 "Image"); simpl; rewrite ?app_nil_r; auto.
    destruct (Str.re_match_Item s1); simpl; rewrite ?app_nil_r; reflexivity.
Qed.

Lemma toc_loop_closed (streams : list path) (toc : list N) :
  toc_loop toc streams =
  if forallb inspectable streams then Return (toc ++ items_of streams)
  else Raise IndexError.
Proof.
  revert toc; induction streams as [|p streams IH]; intros toc; simpl.
  - rewrite app_nil_r; reflexivity.
  - rewrite toc_step_closed.
    destruct (inspectable p); simpl; [|reflexivity].
    rewrite IH. destruct (forallb inspectable streams); [|reflexivity].
    unfold items_of; simpl. rewrite <- app_assoc. reflexivity.
Qed.

Lemma build_toc_closed (streams : list path) :
  build_toc streams =
  if forallb inspectable streams then Return (items_of streams) else Raise IndexError.
Proof. unfold build_toc. rewrite toc_loop_closed. reflexivity. Qed.

Lemma In_items_of (streams : list path) (n : N) :
  In n (items_of streams) <-> exists p, In p streams /\ recognized p n.
Proof.
  unfold items_of. rewrite in_flat_map. split.
  - intros (p & Hp & Hn). exists p. split; auto.
    apply item_of_recognized.
    destruct (item_of p); simpl in Hn; intuition congruence.
  - intros (p & Hp & Hn). exists p. split; auto.
    apply item_of_recognized in Hn. rewrite Hn. simpl; auto.
Qed.

Lemma fold_left_max (l : list N) (x : N) :
  fold_left N.max l x = N.max x (lmax l).
Proof.
  revert x; induction l as [|y l IH]; intros x; simpl.
  - lia.
  - rewrite IH. lia.
Qed.

Lemma py_max_lmax (l : list N) :
  l <> [] -> py_max l = Return (lmax l).
Proof.
  destruct l as [|x l]; [congruence|]. intros _. simpl.
  rewrite fold_left_max. reflexivity.
Qed.

Lemma lmax_upper (l : list N) (n : N) : In n l -> (n <= lmax l)%N.
Proof.
  induction l as [|x l IH]; simpl; [tauto|].
  intros [->|H]; [|specialize (IH H)]; lia.
Qed.

Lemma lmax_In (l : list N) : l <> [] -> In (lmax l) l.
Proof.
  induction l as [|x l IH]; [congruence|]. intros _.
  destruct l as [|y l].
  - simpl. left. lia.
  - assert (H : In (lmax (y :: l)) (y :: l)) by (apply IH; discriminate).
    change (lmax (x :: y :: l)) with (N.max x (lmax (y :: l))).
    destruct (N.max_spec x (lmax (y :: l))) as [[_ ->]|[_ ->]];
      [right; exact H | left; reflexivity].
Qed.

Lemma lmax_Permutation (l l' : list N) : Permutation l l' -> lmax l = lmax l'.
Proof.
  induction 1; simpl; try lia.
Qed.

Lemma forallb_Permutation {A} (f : A -> bool) (l l' : list A) :
  Permutation l l' -> forallb f l = forallb f l'.
Proof.
  induction 1; simpl; try congruence.
  - destruct (f x), (f y); reflexivity.
Qed.

Lemma items_of_Permutation (l l' : list path) :
  Permutation l l' -> Permutation (items_of l) (items_of l').
Proof. apply Permutation_flat_map. Qed.

(** The outcome of the scan does not depend on the order of the listing. *)
Lemma index_len_Permutation (l l' : list path) :
  Permutation l l' -> index_len l = index_len l'.
Proof.
  intros HP. unfold index_len. rewrite !build_toc_closed.
  rewrite (forallb_Permutation inspectable l l' HP).
  destruct (forallb inspectable l'); [|reflexivity]. simpl.
  pose proof (items_of_Permutation l l' HP) as HI.
  destruct (items_of l) as [|x t] eqn:E.
  - apply Permutation_nil in HI. rewrite HI. reflexivity.
  - destruct (items_of l') as [|x' t'] eqn:E'.
    + apply Permutation_sym, Permutation_nil in HI. discriminate.
    + rewrite !py_max_lmax by discriminate.
      f_equal. apply lmax_Permutation, HI.
Qed.

End Index.

(** ** Construction *)

Section Construction.

Variables (filename : string) (shape : nat * nat).
Variables (pf : option (ndarray -> ndarray)) (dt : option dtype) (g : bool).

Lemma init_no_file (w : World) :
  fs w filename = None ->
  ZVI.__init__ filename shape pf dt g w
  = (Raise IOError_open, logged (Call_OleFileIO filename) w).
Proof.
  intros H. unfold ZVI.__init__, bind, OleFileIO. rewrite H. reflexivity.
Qed.

(** Once the file is open the constructor is a function of the listing. *)
Lemma init_opened (w : World) (ole : OleFile) :
  fs w filename = Some ole ->
  ZVI.__init__ filename shape pf dt g w
  = (obind (build_toc (ole_listdir ole)) (fun toc =>
     obind (py_max toc) (fun len =>
     obind (_validate_process_func pf) (fun f =>
     obind (_as_grey g pf) (fun _ =>
       Return {| ZVI._filename := filename; ZVI._ole := ole;
                 ZVI._streams := ole_listdir ole;
                 ZVI._dtype := uint16; ZVI._im_sz := shape;
                 ZVI._toc := toc; ZVI._len := len;
                 ZVI.process_func := f |})))),
     opened filename w).
Proof.
  intros H. unfold ZVI.__init__, bind, OleFileIO, listdir, lift, ret, opened, build_toc.
  rewrite H.
  destruct (toc_loop [] (ole_listdir ole)) as [toc|e]; simpl; [|reflexivity].
  destruct (py_max toc) as [len|e]; simpl; [|reflexivity].
  destruct (_validate_process_func pf) as [f|e]; simpl; [|reflexivity].
  destruct (_as_grey g pf) as [[]|e]; reflexivity.
Qed.

(** What a constructed sequence holds. *)
Lemma init_returned (w w' : World) (self : ZVI.t) :
  ZVI.__init__ filename shape pf dt g w = (Return self, w') ->
  exists ole,
    fs w filename = Some ole /\ w' = opened filename w
    /\ forallb inspectable (ole_listdir ole) = true
    /\ items_of (ole_listdir ole) <> []
    /\ _as_grey g pf = Return tt
    /\ self = {| ZVI._filename := filename; ZVI._ole := ole;
                 ZVI._streams := ole_listdir ole;
                 ZVI._dtype := uint16; ZVI._im_sz := shape;
                 ZVI._toc := items_of (ole_listdir ole);
                 ZVI._len := lmax (items_of (ole_listdir ole));
                 ZVI.process_func :=
                   match pf with Some f => f | None => fun img => img end |}.
Proof.
  destruct (fs w filename) as [ole|] eqn:Hfs.
  - rewrite (init_opened w ole Hfs), build_toc_closed.
    destruct (forallb inspectable (ole_listdir ole)) eqn:Hin; [|discriminate].
    simpl. destruct (items_of (ole_listdir ole)) as [|x l] eqn:Hi; [discriminate|].
    rewrite <- Hi. rewrite py_max_lmax by (rewrite Hi; discriminate). simpl.
    destruct (_as_grey g pf) as [[]|e] eqn:Hg.
    + destruct pf; simpl; intros [= <- <-]; exists ole;
        repeat split; auto; rewrite Hi; discriminate.
    + destruct pf; simpl; discriminate.
  - rewrite (init_no_file w Hfs). discriminate.
Qed.

(** When the constructor returns. *)
Lemma init_returns (w : World) (ole : OleFile) :
  fs w filename = Some ole ->
  forallb inspectable (ole_listdir ole) = true ->
  items_of (ole_listdir ole) <> [] ->
  _as_grey g pf = Return tt ->
  exists self, ZVI.__init__ filename shape pf dt g w = (Return self, opened filename w).
Proof.
  intros Hfs Hi Hne Hg.
  rewrite (init_opened w ole Hfs), build_toc_closed, Hi. simpl.
  rewrite py_max_lmax by assumption. simpl. rewrite Hg.
  destruct pf; simpl; eauto.
Qed.

End Construction.

Lemma build_toc_empty_iff (streams : list path) :
  build_toc streams = Return [] <->
  forallb inspectable streams = true
  /\ forall p n, In p streams -> ~ recognized p n.
Proof.
  rewrite build_toc_closed. split.
  - destruct (forallb inspectable streams); [|discriminate].
    intros [= H]. split; [reflexivity|].
    intros p n Hp Hr.
    assert (Hn : In n (items_of streams)) by (apply In_items_of; eauto).
    rewrite H in Hn. exact Hn.
  - intros [-> H]. f_equal.
    destruct (items_of streams) as [|n l] eqn:E; [reflexivity|].
    assert (Hn : In n (items_of streams)) by (rewrite E; left; reflexivity).
    apply In_items_of in Hn as (p & Hp & Hr). destruct (H p n Hp Hr).
Qed.

(** C1. For every constructed sequence the table [_toc] holds exactly the
    item numbers of the recognized paths of the listing, the reported
    length [__len__] is the maximum of that table (it is one of the item
    numbers and no item number exceeds it), and a container that lists the
    same streams in another order gives a sequence of the same length. *)
Theorem C1_length_is_max_item_number
    (filename : string) (shape : nat * nat) (pf : option (ndarray -> ndarray))
    (dt : option dtype) (g : bool) (w w' : World) (ole : OleFile) (self : ZVI.t) :
  fs w filename = Some ole ->
  ZVI.__init__ filename shape pf dt g w = (Return self, w') ->
  (forall n, In n (ZVI._toc self) <->
             exists p, In p (ole_listdir ole) /\ recognized p n)
  /\ In (ZVI.__len__ self) (ZVI._toc self)
  /\ (forall n, In n (ZVI._toc self) -> (n <= ZVI.__len__ self)%N)
  /\ (forall filename2 w2 ole2,
        fs w2 filename2 = Some ole2 ->
        Permutation (ole_listdir ole) (ole_listdir ole2) ->
        exists self2,
          ZVI.__init__ filename2 shape pf dt g w2 = (Return self2, opened filename2 w2)
          /\ ZVI.__len__ self2 = ZVI.__len__ self).
Proof.
  intros Hfs Hinit.
  destruct (init_returned _ _ _ _ _ _ _ _ Hinit)
    as (ole' & Hfs' & _ & Hin & Hne & Hg & ->).
  assert (ole' = ole) by congruence. subst ole'.
  unfold ZVI.__len__; simpl.
  split; [intros n; apply In_items_of|].
  split; [apply lmax_In, Hne|].
  split; [intros n; apply lmax_upper|].
  intros filename2 w2 ole2 Hfs2 HP.
  pose proof (items_of_Permutation _ _ HP) as HI.
  assert (Hne2 : items_of (ole_listdir ole2) <> []).
  { intros E. rewrite E in HI. apply Permutation_sym, Permutation_nil in HI. auto. }
  assert (Hin2 : forallb inspectable (ole_listdir ole2) = true)
    by (rewrite <- (forallb_Permutation _ _ _ HP); exact Hin).
  destruct (init_returns filename2 shape pf dt g w2 ole2 Hfs2 Hin2 Hne2 Hg)
    as [self2 H2].
  exists self2. split; [exact H2|].
  destruct (init_returned _ _ _ _ _ _ _ _ H2) as (o & Ho & _ & _ & _ & _ & ->).
  assert (o = ole2) by congruence. subst o. simpl.
  symmetry. apply lmax_Permutation, HI.
Qed.

Lemma C1_witness :
  fs world0 "gap.zvi" = Some gap_ole
  /\ ZVI.__init__ "gap.zvi" (2, 1) None None false world0
     = (Return gap_zvi, opened "gap.zvi" world0)
  /\ ZVI.__len__ gap_zvi = 3%N
  /\ In (ZVI.__len__ gap_zvi) (ZVI._toc gap_zvi)
  /\ exists self2,
       ZVI.__init__ "shuffled.zvi" (2, 1) None None false world0
       = (Return self2, opened "shuffled.zvi" world0)
       /\ ZVI.__len__ self2 = ZVI.__len__ gap_zvi.
Proof.
  assert (Hfs : fs world0 "gap.zvi" = Some gap_ole) by reflexivity.
  assert (Hinit : ZVI.__init__ "gap.zvi" (2, 1) None None false world0
                  = (Return gap_zvi, opened "gap.zvi" world0)) by reflexivity.
  destruct (C1_length_is_max_item_number _ _ _ _ _ _ _ _ _ Hfs Hinit)
    as (_ & Hmax & _ & Hperm).
  repeat split; try assumption.
  apply (Hperm "shuffled.zvi" world0 gap_ole_shuffled); [reflexivity|].
  simpl.
  apply (Permutation_cons_app
           [["Image"; "Item(3)"; "Contents"]; ["Thumbnail"];
            ["Image"; "Item(1)"; "Contents"]]
           [["Image"; "Item(0)"; "Contents"]]).
  apply (Permutation_cons_app
           [["Image"; "Item(3)"; "Contents"]; ["Thumbnail"];
            ["Image"; "Item(1)"; "Contents"]] []).
  apply (Permutation_cons_app
           [["Image"; "Item(3)"; "Contents"]; ["Thumbnail"]] []).
  apply Permutation_refl.
Defined.

(** The length is not the number of recognized streams: one frame stream
    numbered 3 gives length 3. *)
Example length_is_not_count :
  exists self,
    ZVI.__init__ "trailing.zvi" (2, 1) None None false world0
    = (Return self, opened "trailing.zvi" world0)
    /\ List.length (ZVI._toc self) = 1 /\ ZVI.__len__ self = 3%N.
Proof. eexists. split; [reflexivity|]. split; reflexivity. Qed.

(** When the scan of the listing ends with an empty frame table, [max] of
    the empty table raises in the constructor, after the container was
    opened and listed. *)
Lemma empty_table_raises
    (filename : string) (shape : nat * nat) (pf : option (ndarray -> ndarray))
    (dt : option dtype) (g : bool) (w : World) (ole : OleFile) :
  fs w filename = Some ole ->
  build_toc (ole_listdir ole) = Return [] ->
  ZVI.__init__ filename shape pf dt g w
  = (Raise ValueError_max_empty, opened filename w).
Proof.
  intros Hfs Htoc. rewrite (init_opened _ _ _ _ _ _ _ Hfs), Htoc. reflexivity.
Qed.

(** C7, as stated, fails: in a container whose only stream is the
    top-level [Image], no stream path is recognized as a frame, yet the
    constructor does not reach [max] of the empty table: [stream[1]]
    raises IndexError in the scan. *)
Lemma C7_counterexample :
  fs image_only_world "image.zvi" = Some image_only_ole
  /\ ole_listdir image_only_ole = [["Image"]]
  /\ (forall p n, In p (ole_listdir image_only_ole) -> ~ recognized p n)
  /\ ZVI.__init__ "image.zvi" (2, 1) None None false image_only_world
     = (Raise IndexError, opened "image.zvi" image_only_world)
  /\ fst (ZVI.__init__ "image.zvi" (2, 1) None None false image_only_world)
     <> Raise ValueError_max_empty.
Proof.
  split; [reflexivity|]. split; [reflexivity|]. split.
  - intros p n [<-|[]] (s1 & rest & ds & H & _). discriminate H.
  - split; [reflexivity | discriminate].
Qed.

(** C7, amended. For every container in which no stream path is
    recognized as a frame and every listed path can be inspected by the
    scan (it has a first component, and a second one when the first is
    [Image]), the constructor fails: [max] of the empty table raises (the
    design document's EmptyIndexError), after the container was opened
    and listed, whatever the other arguments. *)
Theorem C7_no_frames_raises_empty_index
    (filename : string) (shape : nat * nat) (pf : option (ndarray -> ndarray))
    (dt : option dtype) (g : bool) (w : World) (ole : OleFile) :
  fs w filename = Some ole ->
  (forall p, In p (ole_listdir ole) -> inspectable p = true) ->
  (forall p n, In p (ole_listdir ole) -> ~ recognized p n) ->
  ZVI.__init__ filename shape pf dt g w
  = (Raise ValueError_max_empty, opened filename w).
Proof.
  intros Hfs Hin Hrec. apply (empty_table_raises _ _ _ _ _ _ _ Hfs).
  apply build_toc_empty_iff. split; [|exact Hrec].
  apply forallb_forall, Hin.
Qed.

Lemma C7_witness :
  fs world0 "empty.zvi" = Some no_frames_ole
  /\ (forall p, In p (ole_listdir no_frames_ole) -> inspectable p = true)
  /\ (forall p n, In p (ole_listdir no_frames_ole) -> ~ recognized p n)
  /\ ZVI.__init__ "empty.zvi" (2, 1) (Some negate) (Some uint8) true world0
     = (Raise ValueError_max_empty, opened "empty.zvi" world0).
Proof.
  assert (Hin : forall p, In p (ole_listdir no_frames_ole) -> inspectable p = true).
  { intros p [<-|[<-|[]]]; reflexivity. }
  assert (Hrec : forall p n, In p (ole_listdir no_frames_ole) -> ~ recognized p n).
  { intros p n Hp Hr. apply item_of_recognized in Hr.
    destruct Hp as [<-|[<-|[]]]; discriminate Hr. }
  split; [reflexivity|]. split; [exact Hin|]. split; [exact Hrec|].
  exact (C7_no_frames_raises_empty_index "empty.zvi" (2, 1) (Some negate)
           (Some uint8) true world0 no_frames_ole eq_refl Hin Hrec).
Defined.

(** C4, as stated, fails: with both options the constructor first opens
    the container and lists its streams, so the failure does not precede
    the I/O; and on a file that cannot be opened, or that holds no frame,
    the error is not the configuration error. *)
Lemma C4_counterexample :
  ZVI.__init__ "gap.zvi" (2, 1) (Some negate) None true world0
    <> (Raise ValueError_as_grey, world0)
  /\ io_log (snd (ZVI.__init__ "gap.zvi" (2, 1) (Some negate) None true world0))
     = [Call_OleFileIO "gap.zvi"; Call_listdir]
  /\ fst (ZVI.__init__ "missing.zvi" (2, 1) (Some negate) None true world0)
     = Raise IOError_open
  /\ fst (ZVI.__init__ "empty.zvi" (2, 1) (Some negate) None true world0)
     = Raise ValueError_max_empty.
Proof.
  split; [|repeat split; reflexivity].
  intros H. apply (f_equal (fun r => io_log (snd r))) in H. discriminate H.
Qed.

(** C4, amended. With both a processing transform and the greyscale flag
    the constructor never returns a sequence, and it fails only after its
    I/O: if the file cannot be opened the open error is raised; otherwise
    the container is opened and listed, an error of the index scan comes
    first, and the configuration error is raised when the scan gave a
    length. *)
Theorem C4_both_options_rejected_after_io
    (filename : string) (shape : nat * nat) (f : ndarray -> ndarray)
    (dt : option dtype) (w : World) :
  ZVI.__init__ filename shape (Some f) dt true w
  = match fs w filename with
    | None => (Raise IOError_open, logged (Call_OleFileIO filename) w)
    | Some ole =>
        (Raise match index_len (ole_listdir ole) with
               | Return _ => ValueError_as_grey
               | Raise e => e
               end,
         opened filename w)
    end.
Proof.
  destruct (fs w filename) as [ole|] eqn:Hfs.
  - rewrite (init_opened _ _ _ _ _ _ _ Hfs). unfold index_len.
    destruct (build_toc (ole_listdir ole)) as [toc|e]; simpl; [|reflexivity].
    destruct (py_max toc); reflexivity.
  - apply init_no_file, Hfs.
Qed.

(** ** The offset correction *)

Section Roll.

Context {A : Type}.
Implicit Types (x : list A) (shift : Z).

Lemma roll_nil shift : roll (@nil A) shift = [].
Proof. reflexivity. Qed.

(** With [n > 0] samples, [roll] moves the last [shift mod n] to the front. *)
Lemma roll_unfold x shift :
  x <> [] ->
  let n := List.length x in
  let s := Z.to_nat (shift mod Z.of_nat n) in
  (s < n)%nat /\ roll x shift = skipn (n - s) x ++ firstn (n - s) x.
Proof.
  intros Hx n s. assert (Hn : (0 < n)%nat).
  { subst n. destruct x; [congruence | simpl; lia]. }
  split.
  - subst s. pose proof (Z.mod_pos_bound shift (Z.of_nat n)). lia.
  - unfold roll. fold n. destruct (Nat.eqb_spec n 0); [lia | reflexivity].
Qed.

Lemma roll_length x shift : List.length (roll x shift) = List.length x.
Proof.
  destruct x as [|a x]; [reflexivity|].
  destruct (roll_unfold (a :: x) shift) as [_ ->]; [discriminate|].
  rewrite length_app, Nat.add_comm, <- length_app, firstn_skipn. reflexivity.
Qed.

(** Nothing is lost or duplicated: the rolled buffer is a rearrangement. *)
Lemma roll_Permutation x shift : Permutation x (roll x shift).
Proof.
  destruct x as [|a x]; [apply Permutation_refl|].
  destruct (roll_unfold (a :: x) shift) as [_ ->]; [discriminate|].
  eapply Permutation_trans; [|apply Permutation_app_comm].
  rewrite firstn_skipn. apply Permutation_refl.
Qed.

(** Rotating by [k] and then by the complement gives the buffer back. *)
Lemma rotate_back x (k : nat) :
  (k <= List.length x)%nat ->
  let y := skipn k x ++ firstn k x in
  skipn (List.length x - k) y ++ firstn (List.length x - k) y = x.
Proof.
  intros Hk y. subst y.
  assert (Hl : List.length (skipn k x) = (List.length x - k)%nat)
    by apply length_skipn.
  rewrite skipn_app, firstn_app, Hl, Nat.sub_diag. simpl.
  rewrite <- Hl at 1. rewrite skipn_all. simpl.
  rewrite <- Hl at 1. rewrite firstn_all, app_nil_r.
  apply firstn_skipn.
Qed.

(** Sample [i] of the rolled buffer is sample [(i - shift) mod n] of the
    buffer: the rotation wraps around. *)
Lemma roll_nth x shift (i : nat) (d : A) :
  (i < List.length x)%nat ->
  nth i (roll x shift) d
  = nth (Z.to_nat ((Z.of_nat i - shift) mod Z.of_nat (List.length x))) x d.
Proof.
  intros Hi. assert (Hx : x <> []) by (destruct x; [simpl in Hi; lia | discriminate]).
  destruct (roll_unfold x shift Hx) as [Hs ->].
  set (n := List.length x) in *. set (s := Z.to_nat (shift mod Z.of_nat n)) in *.
  assert (Hmod : (shift mod Z.of_nat n = Z.of_nat s)%Z).
  { subst s. pose proof (Z.mod_pos_bound shift (Z.of_nat n)). lia. }
  rewrite <- Zminus_mod_idemp_r, Hmod.
  assert (Hl : List.length (skipn (n - s) x) = s) by (rewrite length_skipn; lia).
  destruct (Nat.lt_ge_cases i s) as [Hlt|Hge].
  - rewrite app_nth1 by lia. rewrite nth_skipn. f_equal.
    replace ((Z.of_nat i - Z.of_nat s) mod Z.of_nat n)%Z
      with (Z.of_nat (n - s + i)); [lia|].
    apply Z.mod_unique with (q := (-1)%Z); lia.
  - rewrite app_nth2 by lia. rewrite Hl, nth_firstn.
    destruct (Nat.ltb_spec (i - s) (n - s)); [|lia]. f_equal.
    rewrite Z.mod_small by lia. lia.
Qed.

Lemma roll_roll_inverse x shift : roll (roll x (- shift)) shift = x.
Proof.
  destruct x as [|a x0]; [reflexivity|]. set (x := a :: x0).
  assert (Hx : x <> []) by discriminate.
  assert (Hy : roll x (- shift) <> []).
  { intros E. apply (f_equal (@List.length A)) in E.
    rewrite roll_length in E. discriminate E. }
  destruct (roll_unfold _ shift Hy) as [Hb Eb].
  rewrite Eb. rewrite roll_length in *. clear Eb.
  destruct (roll_unfold x (- shift) Hx) as [Ha Ea]. rewrite Ea. clear Ea.
  set (n := List.length x) in *.
  set (a' := Z.to_nat ((- shift) mod Z.of_nat n)) in *.
  set (b := Z.to_nat (shift mod Z.of_nat n)) in *.
  assert (Hn : (0 < Z.of_nat n)%Z) by lia.
  assert (Hab : (a' = 0 /\ b = 0)%nat \/ (n - b = n - (n - a'))%nat).
  { destruct (Z.eq_dec (shift mod Z.of_nat n) 0) as [E|E].
    - left. subst a' b. rewrite Z.mod_opp_l_z by lia. rewrite E. split; reflexivity.
    - right. subst a' b. rewrite Z.mod_opp_l_nz by lia.
      pose proof (Z.mod_pos_bound shift (Z.of_nat n) Hn). lia. }
  destruct Hab as [[-> ->] | ->].
  - rewrite !Nat.sub_0_r. subst n.
    rewrite skipn_all, firstn_all. simpl.
    rewrite skipn_all, firstn_all. reflexivity.
  - apply rotate_back. lia.
Qed.

Lemma roll_roll_inverse' x shift : roll (roll x shift) (- shift) = x.
Proof.
  rewrite <- (Z.opp_involutive shift) at 1. apply roll_roll_inverse.
Qed.

End Roll.


(** ** The frame decoder *)

Section Decoder.

Lemma list_pair_ind {A} (P : list A -> Prop) :
  P [] -> (forall a, P [a]) -> (forall a b l, P l -> P (a :: b :: l)) ->
  forall l, P l.
Proof.
  intros H0 H1 H2.
  assert (H : forall l, P l /\ forall a, P (a :: l)).
  { induction l as [|b l [IH1 IH2]]; split; auto. }
  intros l. apply H.
Qed.

Lemma unpack_u16le_length (bs : list byte) :
  List.length (unpack_u16le bs) = (List.length bs / 2)%nat.
Proof.
  induction bs as [| a | a b l IH] using list_pair_ind; try reflexivity.
  change (List.length (unpack_u16le (a :: b :: l)))
    with (S (List.length (unpack_u16le l))).
  rewrite IH. change (List.length (a :: b :: l)) with (1 * 2 + List.length l)%nat.
  rewrite Nat.div_add_l by discriminate. reflexivity.
Qed.

Lemma unpack_u16le_bound (bs : list byte) :
  Forall (fun v => (v < 2 ^ 16)%N) (unpack_u16le bs).
Proof.
  induction bs as [| a | a b l IH] using list_pair_ind; try constructor; auto.
  pose proof (Byte.to_N_bounded a). pose proof (Byte.to_N_bounded b).
  change (2 ^ 16)%N with 65536%N. lia.
Qed.

(** Sample [k] is made of bytes [2k] (low) and [2k + 1] (high). *)
Lemma unpack_u16le_nth (bs : list byte) (k : nat) :
  (2 * k + 1 < List.length bs)%nat ->
  nth k (unpack_u16le bs) 0%N
  = (Byte.to_N (nth (2 * k) bs x00) + 256 * Byte.to_N (nth (2 * k + 1) bs x00))%N.
Proof.
  revert k. induction bs as [| a | a b l IH] using list_pair_ind; intros k Hk.
  - simpl in Hk. lia.
  - simpl in Hk. lia.
  - destruct k as [|k]; [reflexivity|].
    change (nth (S k) (unpack_u16le (a :: b :: l)) 0%N)
      with (nth k (unpack_u16le l) 0%N).
    replace (2 * S k)%nat with (S (S (2 * k))) by lia.
    change (nth (S (S (2 * k))) (a :: b :: l) x00) with (nth (2 * k) l x00).
    change (nth (S (S (2 * k)) + 1) (a :: b :: l) x00) with (nth (2 * k + 1) l x00).
    apply IH. simpl in Hk. lia.
Qed.

Lemma cast_uint16_unpack (bs : list byte) :
  map (cast uint16) (unpack_u16le bs) = unpack_u16le bs.
Proof.
  pose proof (unpack_u16le_bound bs) as H.
  induction H as [|v l Hv _ IH]; [reflexivity|].
  simpl. rewrite IH. f_equal. apply N.mod_small, Hv.
Qed.

Lemma fromstring_enough (size : nat * nat) (data : list byte) :
  (2 * (fst size * snd size) <= List.length data)%nat ->
  Image_fromstring_I16L size data
  = Return {| im_size := size;
              im_pixels := unpack_u16le (firstn (2 * (fst size * snd size)) data) |}.
Proof.
  intros H. unfold Image_fromstring_I16L.
  destruct (Nat.ltb_spec (List.length data) (2 * (fst size * snd size))); [lia|].
  reflexivity.
Qed.

Lemma fromstring_short (size : nat * nat) (data : list byte) :
  (List.length data < 2 * (fst size * snd size))%nat ->
  Image_fromstring_I16L size data = Raise ValueError_not_enough_image_data.
Proof.
  intros H. unfold Image_fromstring_I16L.
  destruct (Nat.ltb_spec (List.length data) (2 * (fst size * snd size))); [|lia].
  reflexivity.
Qed.

(** [get_frame] makes one call to the container; its outcome is decided
    by the stream and does not depend on the calls made before. *)
Lemma get_frame_unfold (self : ZVI.t) (j : Z) (w : World) :
  ZVI.get_frame self j w
  = (match ole_openstream (ZVI._ole self) (ZVI.stream_label j) with
     | None => Raise IOError_file_not_found
     | Some data =>
         obind (Image_fromstring_I16L (ZVI._im_sz self) data) (fun img =>
           Return {| frame_arr :=
                       ZVI.process_func self
                         (np_roll (np_asarray img (ZVI._dtype self)) (-162));
                     frame_no := j |})
     end,
     logged (Call_openstream (ZVI.stream_label j)) w).
Proof.
  unfold ZVI.get_frame, bind, openstream_read, lift, ret.
  destruct (ole_openstream (ZVI._ole self) (ZVI.stream_label j)) as [data|];
    [|reflexivity].
  destruct (Image_fromstring_I16L (ZVI._im_sz self) data); reflexivity.
Qed.

Lemma get_in_range (self : ZVI.t) (j : Z) :
  (0 <= j < Z.of_N (ZVI.__len__ self))%Z ->
  get self j = ZVI.get_frame self j.
Proof.
  intros H. unfold get.
  destruct (Z.ltb_spec j (- Z.of_N (ZVI.__len__ self))); [lia|].
  destruct (Z.leb_spec (Z.of_N (ZVI.__len__ self)) j); [lia|].
  destruct (Z.ltb_spec j 0); [lia|]. reflexivity.
Qed.

Lemma get_out_of_range (self : ZVI.t) (j : Z) (w : World) :
  (j < - Z.of_N (ZVI.__len__ self) \/ Z.of_N (ZVI.__len__ self) <= j)%Z ->
  get self j w = (Raise IndexError, w).
Proof.
  intros H. unfold get.
  destruct (Z.ltb_spec j (- Z.of_N (ZVI.__len__ self)));
    destruct (Z.leb_spec (Z.of_N (ZVI.__len__ self)) j); try reflexivity; lia.
Qed.

End Decoder.

(** ** Recognition of frame paths *)

Lemma int_acc_app (acc : N) (s t : string) :
  Str.int_acc acc (s ++ t) = Str.int_acc (Str.int_acc acc s) t.
Proof.
  revert acc; induction s as [|c s IH]; intros acc; simpl; [reflexivity | apply IH].
Qed.

(** [int] reads a digit run as a decimal numeral. *)
Lemma int_snoc (ds : string) (c : ascii) :
  Str.int (ds ++ String c "") = (10 * Str.int ds + Str.digit_val c)%N.
Proof. unfold Str.int. rewrite int_acc_app. reflexivity. Qed.

(** C5, as stated, fails: the second component [Item(3)x] does not match
    the pattern in its entirety, yet the path is recognized as frame 3. *)
Lemma C5_counterexample :
  toc_step [] ["Image"; "Item(3)x"; "Contents"] = Return [3%N]
  /\ ~ exists ds, fully_matches_Item "Item(3)x" ds.
Proof.
  split; [reflexivity|].
  intros (ds & H & _ & Hd). simpl in H. injection H as H.
  destruct ds as [|c [|c' ds]]; simpl in H; try discriminate H.
  injection H as <- <- _. discriminate Hd.
Qed.

(** C5, amended. For a path with at least two components: it adds the
    item number [n] to the table exactly when its first component is
    [Image] and its second component begins with [Item(], a non-empty run
    of digits and [)], [n] being the value of the digit run; otherwise the
    table is left as it is; in neither case is an error raised.  A path
    whose first component is not [Image] is skipped, whatever follows. *)
Theorem C5_recognition_by_prefix (toc : list N) (s0 s1 : string) (rest : list string) :
  (forall n, toc_step toc (s0 :: s1 :: rest) = Return (toc ++ [n]) <->
             s0 = "Image" /\ exists ds, prefix_matches_Item s1 ds /\ n = Str.int ds)
  /\ (toc_step toc (s0 :: s1 :: rest) = Return toc <->
      ~ (s0 = "Image" /\ exists ds, prefix_matches_Item s1 ds))
  /\ (forall e, toc_step toc (s0 :: s1 :: rest) <> Raise e)
  /\ (forall s rest', s <> "Image" -> toc_step toc (s :: rest') = Return toc).
Proof.
  assert (Hneq : forall n : N, toc ++ [n] <> toc).
  { intros n E. apply (f_equal (@List.length N)) in E.
    rewrite length_app in E. simpl in E. lia. }
  assert (Hskip : forall s rest', s <> "Image" -> toc_step toc (s :: rest') = Return toc).
  { intros s rest' Hs. simpl.
    destruct (String.eqb_spec s "Image"); [contradiction | reflexivity]. }
  simpl. destruct (String.eqb_spec s0 "Image") as [->|Hs0]; simpl.
  - destruct (Str.re_match_Item s1) as [g1|] eqn:Hm.
    + pose proof (proj1 (re_match_Item_spec s1 g1) Hm) as Hp.
      split; [intros n; split | split; [split | split; [discriminate | exact Hskip]]].
      * intros [= E]. apply app_inv_head in E. injection E as <-. eauto.
      * intros (_ & ds & Hds & ->).
        rewrite (prefix_matches_Item_fun _ _ _ Hds Hp). reflexivity.
      * intros [= E] _. exact (Hneq _ E).
      * intros H. destruct H. eauto.
    + split; [intros n; split | split; [split | split; [discriminate | exact Hskip]]].
      * intros [= E]. destruct (Hneq n). auto.
      * intros (_ & ds & Hds & _). apply re_match_Item_spec in Hds. congruence.
      * intros _ (_ & ds & Hds). apply re_match_Item_spec in Hds. congruence.
      * reflexivity.
  - split; [intros n; split | split; [split | split; [discriminate | exact Hskip]]].
    + intros [= E]. destruct (Hneq n). auto.
    + tauto.
    + tauto.
    + reflexivity.
Qed.

(** X1. A one-component path [Image] in the listing stops the scan:
    [stream[1]] raises IndexError, whatever comes after it. *)
Lemma short_Image_path_raises (toc : list N) (before after : list path) :
  forallb inspectable before = true ->
  toc_loop toc (before ++ ["Image"] :: after) = Raise IndexError.
Proof.
  intros H. rewrite toc_loop_closed, forallb_app, H. reflexivity.
Qed.

(** ** Retrieval *)

(** C2, as stated, fails: the sequence [ZVI('gap.zvi', (2, 1))] reports
    the frame shape [(2, 1)], the caller's (width, height); frame 0 exists
    and is long enough, and the array returned for it has shape [(1, 2)],
    one row of two samples. *)
Lemma C2_counterexample :
  ZVI.__init__ "gap.zvi" (2, 1) None None false world0
    = (Return gap_zvi, opened "gap.zvi" world0)
  /\ (0 <= 0 < Z.of_N (ZVI.__len__ gap_zvi))%Z
  /\ ole_openstream (ZVI._ole gap_zvi) (ZVI.stream_label 0) = Some [x01; x00; x02; x00]
  /\ ZVI.frame_shape gap_zvi = (2, 1)
  /\ exists fr w',
       get gap_zvi 0 world0 = (Return fr, w')
       /\ ZVI.get_frame gap_zvi 0 world0 = (Return fr, w')
       /\ nd_shape (frame_arr fr) = (1, 2)
       /\ nd_shape (frame_arr fr) <> ZVI.frame_shape gap_zvi.
Proof.
  split; [reflexivity|]. split; [vm_compute; split; congruence|].
  split; [reflexivity|]. split; [reflexivity|].
  eexists. eexists. split; [reflexivity|]. split; [reflexivity|].
  split; [reflexivity | discriminate].
Qed.

(** C2, amended. For a constructed sequence, an index [0 <= j < length]
    and a stream [Image/Item(j)/Contents] holding at least
    [2 * width * height] bytes, [get(j)] reads that one stream and returns
    the frame numbered [j] whose array is the processing transform applied
    to [arr]: of shape [(height, width)], that is [frame_shape()] with its
    components swapped, of dtype [uint16], holding the [width * height]
    little-endian 16-bit samples of the stream in row-major order, rolled
    back by 162; without a processing transform the array is [arr].  In
    this range [get(j)] is the decoder [get_frame(j)]. *)
Theorem C2_get_decodes_frame
    (filename : string) (shape : nat * nat) (pf : option (ndarray -> ndarray))
    (dt : option dtype) (g : bool) (w w' w1 : World) (self : ZVI.t)
    (j : Z) (data : list byte) :
  ZVI.__init__ filename shape pf dt g w = (Return self, w') ->
  (0 <= j < Z.of_N (ZVI.__len__ self))%Z ->
  ole_openstream (ZVI._ole self) (ZVI.stream_label j) = Some data ->
  (2 * (fst shape * snd shape) <= List.length data)%nat ->
  let samples := unpack_u16le (firstn (2 * (fst shape * snd shape)) data) in
  let arr := {| nd_shape := (snd shape, fst shape); nd_dtype := uint16;
                nd_data := roll samples (-162) |} in
  ZVI.frame_shape self = shape
  /\ get self j w1
     = (Return {| frame_arr := ZVI.process_func self arr; frame_no := j |},
        logged (Call_openstream
                  ["Image"; ("Item(" ++ Str.str j ++ ")")%string; "Contents"]) w1)
  /\ List.length (nd_data arr) = (snd shape * fst shape)%nat
  /\ Forall (fun v => (v < 2 ^ 16)%N) (nd_data arr)
  /\ (forall k, (k < fst shape * snd shape)%nat ->
        nth k samples 0%N
        = (Byte.to_N (nth (2 * k) data x00)
           + 256 * Byte.to_N (nth (2 * k + 1) data x00))%N)
  /\ (pf = None -> ZVI.process_func self arr = arr)
  /\ get self j w1 = ZVI.get_frame self j w1.
Proof.
  intros Hinit Hj Hdata Hlen samples arr.
  destruct (init_returned _ _ _ _ _ _ _ _ Hinit) as (ole & _ & _ & _ & _ & _ & ->).
  simpl in Hdata. unfold ZVI.frame_shape. simpl.
  assert (Hs : List.length samples = (fst shape * snd shape)%nat).
  { subst samples. rewrite unpack_u16le_length, firstn_length_le by lia.
    rewrite Nat.mul_comm. apply Nat.div_mul. discriminate. }
  split; [reflexivity|]. split.
  { rewrite get_in_range by exact Hj. rewrite get_frame_unfold. simpl.
    rewrite Hdata, fromstring_enough by exact Hlen. simpl.
    unfold np_roll, np_asarray. simpl. rewrite cast_uint16_unpack. reflexivity. }
  split; [rewrite roll_length, Hs; apply Nat.mul_comm|].
  split.
  { eapply Permutation_Forall; [apply roll_Permutation|]. apply unpack_u16le_bound. }
  split.
  { intros k Hk. subst samples. rewrite unpack_u16le_nth.
    - rewrite !nth_firstn.
      destruct (Nat.ltb_spec (2 * k) (2 * (fst shape * snd shape))); [|lia].
      destruct (Nat.ltb_spec (2 * k + 1) (2 * (fst shape * snd shape))); [|lia].
      reflexivity.
    - rewrite firstn_length_le by lia. lia. }
  split; [intros ->; reflexivity|].
  rewrite get_in_range by exact Hj. reflexivity.
Qed.

Lemma C2_witness :
  ZVI.__init__ "gap.zvi" (2, 1) None None false world0
    = (Return gap_zvi, opened "gap.zvi" world0)
  /\ (0 <= 1 < Z.of_N (ZVI.__len__ gap_zvi))%Z
  /\ ole_openstream (ZVI._ole gap_zvi) (ZVI.stream_label 1) = Some [x03; x00; x04; x01]
  /\ (2 * (fst (2, 1) * snd (2, 1)) <= List.length [x03; x00; x04; x01])%nat
  /\ get gap_zvi 1 world0
     = (Return {| frame_arr := {| nd_shape := (1, 2); nd_dtype := uint16;
                                  nd_data := [3; 260]%N |};
                  frame_no := 1 |},
        logged (Call_openstream ["Image"; "Item(1)"; "Contents"]) world0).
Proof.
  assert (Hinit : ZVI.__init__ "gap.zvi" (2, 1) None None false world0
                  = (Return gap_zvi, opened "gap.zvi" world0)) by reflexivity.
  assert (Hj : (0 <= 1 < Z.of_N (ZVI.__len__ gap_zvi))%Z)
    by (vm_compute; split; congruence).
  assert (Hdata : ole_openstream (ZVI._ole gap_zvi) (ZVI.stream_label 1)
                  = Some [x03; x00; x04; x01]) by reflexivity.
  assert (Hlen : (2 * (fst (2, 1) * snd (2, 1))
                  <= List.length [x03; x00; x04; x01])%nat) by (simpl; lia).
  split; [exact Hinit|]. split; [exact Hj|].
  split; [exact Hdata|]. split; [exact Hlen|].
  exact (proj1 (proj2 (C2_get_decodes_frame _ _ _ _ _ _ _ world0 _ _ _
                         Hinit Hj Hdata Hlen))).
Defined.

(** C3, as stated, fails: for the container with frames 0, 1 and 3 the
    length is 3, so index 3 is not below the length and [get(3)] is
    refused with IndexError instead of succeeding. *)
Lemma C3_counterexample :
  ZVI.__init__ "gap.zvi" (2, 1) None None false world0
    = (Return gap_zvi, opened "gap.zvi" world0)
  /\ ZVI.__len__ gap_zvi = 3%N
  /\ get gap_zvi 3 world0 = (Raise IndexError, world0)
  /\ forall fr w', get gap_zvi 3 world0 <> (Return fr, w').
Proof.
  split; [reflexivity|]. split; [reflexivity|]. split; [reflexivity|].
  intros fr w' H. discriminate H.
Qed.

(** C3, amended. For a container whose recognized item numbers are 0, 1
    and 3, whose streams [Image/Item(0)/Contents], [Image/Item(1)/Contents]
    and [Image/Item(3)/Contents] are long enough for the shape and which
    has no stream [Image/Item(2)/Contents]: the sequence is constructed
    with length 3; [get(0)] and [get(1)] return frames 0 and 1; [get(2)]
    raises the missing-stream error of the container, passed on to the
    caller; [get(3)] is refused with IndexError, 3 not being below the
    length, although the decoder [get_frame(3)] returns frame 3. *)
Theorem C3_gap_container
    (filename : string) (shape : nat * nat) (w : World) (ole : OleFile)
    (d0 d1 d3 : list byte) :
  fs w filename = Some ole ->
  forallb inspectable (ole_listdir ole) = true ->
  (forall n, (exists p, In p (ole_listdir ole) /\ recognized p n)
             <-> (n = 0 \/ n = 1 \/ n = 3)%N) ->
  ole_openstream ole ["Image"; "Item(0)"; "Contents"] = Some d0 ->
  ole_openstream ole ["Image"; "Item(1)"; "Contents"] = Some d1 ->
  ole_openstream ole ["Image"; "Item(2)"; "Contents"] = None ->
  ole_openstream ole ["Image"; "Item(3)"; "Contents"] = Some d3 ->
  (2 * (fst shape * snd shape) <= List.length d0)%nat ->
  (2 * (fst shape * snd shape) <= List.length d1)%nat ->
  (2 * (fst shape * snd shape) <= List.length d3)%nat ->
  exists self,
    ZVI.__init__ filename shape None None false w = (Return self, opened filename w)
    /\ ZVI.__len__ self = 3%N
    /\ (forall w1, exists fr,
          get self 0 w1 = (Return fr, logged (Call_openstream (ZVI.stream_label 0)) w1)
          /\ frame_no fr = 0%Z)
    /\ (forall w1, exists fr,
          get self 1 w1 = (Return fr, logged (Call_openstream (ZVI.stream_label 1)) w1)
          /\ frame_no fr = 1%Z)
    /\ (forall w1,
          get self 2 w1
          = (Raise IOError_file_not_found, logged (Call_openstream (ZVI.stream_label 2)) w1))
    /\ (forall w1, get self 3 w1 = (Raise IndexError, w1))
    /\ (forall w1, exists fr,
          ZVI.get_frame self 3 w1
          = (Return fr, logged (Call_openstream (ZVI.stream_label 3)) w1)
          /\ frame_no fr = 3%Z).
Proof.
  intros Hfs Hin Hrec H0 H1 H2 H3 L0 L1 L3.
  assert (Hitems : forall n, In n (items_of (ole_listdir ole))
                             <-> (n = 0 \/ n = 1 \/ n = 3)%N).
  { intros n. rewrite In_items_of. apply Hrec. }
  assert (Hne : items_of (ole_listdir ole) <> []).
  { intros E. assert (Hx : In 3%N (items_of (ole_listdir ole))) by (apply Hitems; auto).
    rewrite E in Hx. exact Hx. }
  assert (Hmax : lmax (items_of (ole_listdir ole)) = 3%N).
  { pose proof (proj1 (Hitems _) (lmax_In _ Hne)) as Hm.
    assert (Hu : (3 <= lmax (items_of (ole_listdir ole)))%N)
      by (apply lmax_upper, Hitems; auto).
    lia. }
  destruct (init_returns filename shape None None false w ole Hfs Hin Hne eq_refl)
    as [self Hinit].
  exists self. split; [exact Hinit|].
  destruct (init_returned _ _ _ _ _ _ _ _ Hinit) as (o & Ho & _ & _ & _ & _ & ->).
  assert (o = ole) by congruence. subst o.
  unfold ZVI.__len__ at 1. simpl ZVI._len. split; [exact Hmax|].
  assert (Hlen : forall s, ZVI.__len__
            {| ZVI._filename := filename; ZVI._ole := ole;
               ZVI._streams := ole_listdir ole; ZVI._dtype := uint16;
               ZVI._im_sz := shape; ZVI._toc := items_of (ole_listdir ole);
               ZVI._len := lmax (items_of (ole_listdir ole));
               ZVI.process_func := s |} = 3%N) by (intros; exact Hmax).
  repeat split; intros w1.
  - rewrite get_in_range by (rewrite Hlen; lia).
    rewrite get_frame_unfold. cbn [ZVI._ole ZVI._im_sz].
    change (ZVI.stream_label 0) with ["Image"; "Item(0)"; "Contents"].
    rewrite H0, fromstring_enough by exact L0.
    eexists. split; reflexivity.
  - rewrite get_in_range by (rewrite Hlen; lia).
    rewrite get_frame_unfold. cbn [ZVI._ole ZVI._im_sz].
    change (ZVI.stream_label 1) with ["Image"; "Item(1)"; "Contents"].
    rewrite H1, fromstring_enough by exact L1.
    eexists. split; reflexivity.
  - rewrite get_in_range by (rewrite Hlen; lia).
    rewrite get_frame_unfold. cbn [ZVI._ole].
    change (ZVI.stream_label 2) with ["Image"; "Item(2)"; "Contents"].
    rewrite H2. reflexivity.
  - apply get_out_of_range. rewrite Hlen. lia.
  - rewrite get_frame_unfold. cbn [ZVI._ole ZVI._im_sz].
    change (ZVI.stream_label 3) with ["Image"; "Item(3)"; "Contents"].
    rewrite H3, fromstring_enough by exact L3.
    eexists. split; reflexivity.
Qed.

Lemma C3_witness :
  fs world0 "gap.zvi" = Some gap_ole
  /\ forallb inspectable (ole_listdir gap_ole) = true
  /\ ole_openstream gap_ole ["Image"; "Item(2)"; "Contents"] = None
  /\ exists self,
       ZVI.__init__ "gap.zvi" (2, 1) None None false world0
       = (Return self, opened "gap.zvi" world0)
       /\ ZVI.__len__ self = 3%N
       /\ (forall w1, exists fr,
             get self 0 w1 = (Return fr, logged (Call_openstream (ZVI.stream_label 0)) w1)
             /\ frame_no fr = 0%Z)
       /\ (forall w1, exists fr,
             get self 1 w1 = (Return fr, logged (Call_openstream (ZVI.stream_label 1)) w1)
             /\ frame_no fr = 1%Z)
       /\ (forall w1,
             get self 2 w1
             = (Raise IOError_file_not_found,
                logged (Call_openstream (ZVI.stream_label 2)) w1))
       /\ (forall w1, get self 3 w1 = (Raise IndexError, w1))
       /\ (forall w1, exists fr,
             ZVI.get_frame self 3 w1
             = (Return fr, logged (Call_openstream (ZVI.stream_label 3)) w1)
             /\ frame_no fr = 3%Z).
Proof.
  split; [reflexivity|]. split; [reflexivity|]. split; [reflexivity|].
  apply (C3_gap_container "gap.zvi" (2, 1) world0 gap_ole
           [x01; x00; x02; x00] [x03; x00; x04; x01] [xff; xff; x00; x80; x07]);
    try reflexivity; try (simpl; lia).
  intros n. rewrite <- In_items_of.
  change (items_of (ole_listdir gap_ole)) with [0; 1; 3]%N.
  simpl. intuition auto.
Defined.

(** C8. [get(-1)] is [get(length() - 1)]: the same outcome and the same
    calls.  For a sequence of positive length both are the decoder applied
    to [length() - 1]; for length 0 both are refused. *)
Theorem C8_minus_one_is_length_minus_one (self : ZVI.t) (w : World) :
  get self (-1) w = get self (Z.of_N (ZVI.__len__ self) - 1) w
  /\ get self (-1) w
     = if (ZVI.__len__ self =? 0)%N then (Raise IndexError, w)
       else ZVI.get_frame self (Z.of_N (ZVI.__len__ self) - 1) w.
Proof.
  destruct (N.eqb_spec (ZVI.__len__ self) 0) as [E|E].
  - rewrite E. simpl. split; [reflexivity|].
    apply get_out_of_range. rewrite E. simpl. lia.
  - assert (H : get self (-1) w
                = ZVI.get_frame self (Z.of_N (ZVI.__len__ self) - 1) w).
    { unfold get.
      destruct (Z.ltb_spec (-1) (- Z.of_N (ZVI.__len__ self))); [lia|].
      destruct (Z.leb_spec (Z.of_N (ZVI.__len__ self)) (-1)); [lia|].
      simpl. f_equal. }
    split; [|exact H]. rewrite H, get_in_range by lia. reflexivity.
Qed.

(** The outcome of [get] does not depend on the calls made before. *)
Lemma get_outcome_independent (self : ZVI.t) (j : Z) (w w' : World) :
  fst (get self j w) = fst (get self j w').
Proof.
  unfold get.
  destruct ((j <? - Z.of_N (ZVI.__len__ self))%Z || (Z.of_N (ZVI.__len__ self) <=? j)%Z);
    [reflexivity|].
  rewrite !get_frame_unfold. reflexivity.
Qed.

Lemma get_keeps_files (self : ZVI.t) (j : Z) (w : World) :
  fs (snd (get self j w)) = fs w.
Proof.
  unfold get.
  destruct ((j <? - Z.of_N (ZVI.__len__ self))%Z || (Z.of_N (ZVI.__len__ self) <=? j)%Z);
    [reflexivity|].
  rewrite get_frame_unfold. reflexivity.
Qed.

(** C9. Two consecutive calls [get(j)] on the same sequence have the same
    outcome, the same frame with the same samples or the same exception:
    the second call runs in the world the first one left, whose files are
    those of the world before. *)
Theorem C9_get_is_deterministic (self : ZVI.t) (j : Z) (w : World) :
  fst (get self j (snd (get self j w))) = fst (get self j w)
  /\ fs (snd (get self j w)) = fs w.
Proof.
  split; [apply get_outcome_independent | apply get_keeps_files].
Qed.

(** C10. The constructor's [dtype] argument has no effect: any two values
    give the same outcome.  A constructed sequence has pixel type [uint16],
    and the array its decoder hands to the processing transform has dtype
    [uint16] and samples below [2^16]. *)
Theorem C10_dtype_argument_ignored
    (filename : string) (shape : nat * nat) (pf : option (ndarray -> ndarray))
    (dt dt' : option dtype) (g : bool) (w : World) :
  ZVI.__init__ filename shape pf dt g w = ZVI.__init__ filename shape pf dt' g w
  /\ forall self w', ZVI.__init__ filename shape pf dt g w = (Return self, w') ->
       ZVI.pixel_type self = uint16
       /\ forall j w1 fr w2, ZVI.get_frame self j w1 = (Return fr, w2) ->
            exists arr, frame_arr fr = ZVI.process_func self arr
                        /\ nd_dtype arr = uint16
                        /\ Forall (fun v => (v < 2 ^ 16)%N) (nd_data arr).
Proof.
  split; [reflexivity|].
  intros self w' Hinit.
  destruct (init_returned _ _ _ _ _ _ _ _ Hinit) as (ole & _ & _ & _ & _ & _ & ->).
  split; [reflexivity|].
  intros j w1 fr w2. rewrite get_frame_unfold. simpl.
  destruct (ole_openstream ole (ZVI.stream_label j)) as [data|]; [|discriminate].
  unfold Image_fromstring_I16L.
  destruct (List.length data <? 2 * (fst shape * snd shape))%nat; [discriminate|].
  simpl. intros [= <- _]. eexists. split; [reflexivity|]. split; [reflexivity|].
  simpl. eapply Permutation_Forall; [apply roll_Permutation|].
  rewrite cast_uint16_unpack. apply unpack_u16le_bound.
Qed.

(** ** The decoder's labels and the index agree *)

Section Labels.

Lemma int_acc_string_of_uint (d : Decimal.uint) (acc : N) :
  Str.int_acc acc (NilEmpty.string_of_uint d)
  = match acc with
    | N0 => Pos.of_uint d
    | Npos p => Npos (Pos.of_uint_acc d p)
    end.
Proof.
  revert acc; induction d as [|d IH|d IH|d IH|d IH|d IH|d IH|d IH|d IH|d IH|d IH];
    intros acc; cbn [NilEmpty.string_of_uint Str.int_acc];
    [destruct acc; reflexivity|..];
    rewrite IH; destruct acc as [|p]; try reflexivity;
    cbn [Pos.of_uint_acc];
    match goal with
    | |- match ?e with _ => _ end = N.pos (Pos.of_uint_acc _ ?q) =>
        replace e with (N.pos q)
          by (match goal with
              | |- context [Str.digit_val ?c] =>
                  let v := eval vm_compute in (Str.digit_val c) in
                  change (Str.digit_val c) with v
              end; lia)
    end; reflexivity.
Qed.

Lemma all_digits_string_of_uint (d : Decimal.uint) :
  Str.all_digits (NilEmpty.string_of_uint d) = true.
Proof. induction d; simpl; auto. Qed.

Lemma str_of_N (n : N) :
  Str.str (Z.of_N n) = NilEmpty.string_of_uint (N.to_uint n)
  /\ Str.str (Z.of_N n) <> "".
Proof.
  unfold Str.str. destruct n as [|p]; [split; [reflexivity | discriminate]|].
  simpl. pose proof (Unsigned.to_uint_nonnil p) as Hn.
  unfold NilZero.string_of_uint.
  destruct (Pos.to_uint p) eqn:E; try congruence;
    (split; [reflexivity | discriminate]).
Qed.

(** Printing a natural number and reading it back gives the number. *)
Lemma int_str (n : N) : Str.int (Str.str (Z.of_N n)) = n.
Proof.
  destruct (str_of_N n) as [-> _]. unfold Str.int.
  rewrite int_acc_string_of_uint. apply DecimalN.Unsigned.of_to.
Qed.

(** X3. The path [get_frame(n)] reads is one the index scan recognizes
    as frame [n]. *)
Lemma stream_label_recognized (toc : list N) (n : N) :
  toc_step toc (ZVI.stream_label (Z.of_N n)) = Return (toc ++ [n]).
Proof.
  unfold ZVI.stream_label, toc_step. simpl (negb _).
  assert (Hm : Str.re_match_Item ("Item(" ++ Str.str (Z.of_N n) ++ ")")
               = Some (Str.str (Z.of_N n))).
  { apply re_match_Item_spec. exists ""%string.
    destruct (str_of_N n) as [E Hne]. split; [reflexivity|]. split; [exact Hne|].
    rewrite E. apply all_digits_string_of_uint. }
  rewrite Hm, int_str. reflexivity.
Qed.

End Labels.

(** ** Failures of the decoder *)

(** X2. A stream shorter than [2 * width * height] bytes makes
    [get_frame] raise the decoder's error; no array is returned. *)
Lemma get_frame_short_stream (self : ZVI.t) (j : Z) (data : list byte) (w : World) :
  ole_openstream (ZVI._ole self) (ZVI.stream_label j) = Some data ->
  (List.length data < 2 * (fst (ZVI._im_sz self) * snd (ZVI._im_sz self)))%nat ->
  ZVI.get_frame self j w
  = (Raise ValueError_not_enough_image_data,
     logged (Call_openstream (ZVI.stream_label j)) w).
Proof.
  intros Hd Hl. rewrite get_frame_unfold, Hd, fromstring_short by exact Hl.
  reflexivity.
Qed.

Lemma get_frame_short_stream_witness :
  ole_openstream (ZVI._ole gap_zvi_wide) (ZVI.stream_label 0)
    = Some [x01; x00; x02; x00]
  /\ (List.length [x01; x00; x02; x00]
      < 2 * (fst (ZVI._im_sz gap_zvi_wide) * snd (ZVI._im_sz gap_zvi_wide)))%nat
  /\ ZVI.get_frame gap_zvi_wide 0 world0
     = (Raise ValueError_not_enough_image_data,
        logged (Call_openstream (ZVI.stream_label 0)) world0).
Proof.
  split; [reflexivity|]. split; [simpl; lia|].
  apply (get_frame_short_stream gap_zvi_wide 0 [x01; x00; x02; x00] world0);
    [reflexivity | simpl; lia].
Defined.

(** Bytes beyond the image are ignored: frame 3 of the example has five
    bytes for two samples. *)
Example get_frame_excess_bytes :
  ZVI.get_frame gap_zvi 3 world0
  = (Return {| frame_arr := {| nd_shape := (1, 2); nd_dtype := uint16;
                               nd_data := [65535; 32768]%N |};
               frame_no := 3 |},
     logged (Call_openstream ["Image"; "Item(3)"; "Contents"]) world0).
Proof. reflexivity. Qed.

Lemma short_Image_path_raises_witness :
  forallb inspectable [["Image"; "Item(0)"; "Contents"]] = true
  /\ toc_loop [] ([["Image"; "Item(0)"; "Contents"]] ++ ["Image"] :: [])
     = Raise IndexError
  /\ ZVI.__init__ "any.zvi" (2, 1) None None false short_path_world
     = (Raise IndexError, opened "any.zvi" short_path_world).
Proof.
  split; [reflexivity|]. split; [|reflexivity].
  apply (short_Image_path_raises [] [["Image"; "Item(0)"; "Contents"]] []).
  reflexivity.
Defined.

(** ** What construction looks at, and what the length counts *)

(** X4. The constructor opens the container and lists it, and makes no
    other call: it reads no stream.  Its outcome is decided by the listing
    alone: a container with the same listing, whatever its streams hold,
    raises the same exception or gives a sequence with the same table,
    length, shape and pixel type. *)
Theorem init_reads_no_stream
    (filename : string) (shape : nat * nat) (pf : option (ndarray -> ndarray))
    (dt : option dtype) (g : bool) (w : World) (ole : OleFile) :
  fs w filename = Some ole ->
  snd (ZVI.__init__ filename shape pf dt g w) = opened filename w
  /\ forall filename' w' ole',
       fs w' filename' = Some ole' ->
       ole_listdir ole' = ole_listdir ole ->
       (forall e, fst (ZVI.__init__ filename shape pf dt g w) = Raise e ->
                  fst (ZVI.__init__ filename' shape pf dt g w') = Raise e)
       /\ (forall self, fst (ZVI.__init__ filename shape pf dt g w) = Return self ->
             exists self',
               fst (ZVI.__init__ filename' shape pf dt g w') = Return self'
               /\ ZVI._toc self' = ZVI._toc self
               /\ ZVI.__len__ self' = ZVI.__len__ self
               /\ ZVI.frame_shape self' = ZVI.frame_shape self
               /\ ZVI.pixel_type self' = ZVI.pixel_type self).
Proof.
  intros Hfs. rewrite (init_opened _ _ _ _ _ _ _ Hfs).
  split; [reflexivity|].
  intros filename' w' ole' Hfs' Hl.
  rewrite (init_opened _ _ _ _ _ _ _ Hfs'), Hl. simpl.
  destruct (build_toc (ole_listdir ole)) as [toc|e0]; simpl;
    [|split; [auto | discriminate]].
  destruct (py_max toc) as [len|e0]; simpl; [|split; [auto | discriminate]].
  destruct (_validate_process_func pf) as [f|e0]; simpl;
    [|split; [auto | discriminate]].
  destruct (_as_grey g pf) as [[]|e0]; simpl; [|split; [auto | discriminate]].
  split; [discriminate|]. intros self [= <-]. eexists. split; [reflexivity|].
  repeat split.
Qed.

Lemma init_reads_no_stream_witness :
  fs world0 "gap.zvi" = Some gap_ole
  /\ io_log (snd (ZVI.__init__ "gap.zvi" (2, 1) None None false world0))
     = [Call_OleFileIO "gap.zvi"; Call_listdir].
Proof.
  split; [reflexivity|].
  rewrite (proj1 (init_reads_no_stream "gap.zvi" (2, 1) None None false
                    world0 gap_ole eq_refl)).
  reflexivity.
Defined.

Lemma NoDup_bounded_length (l : list N) (m : N) :
  NoDup l -> (forall x, In x l -> (x <= m)%N) ->
  (List.length l <= N.to_nat m + 1)%nat.
Proof.
  intros Hnd Hb.
  assert (Hnd' : NoDup (map N.to_nat l)).
  { apply Finite.Injective_map_NoDup; [|exact Hnd].
    intros x y. apply N2Nat.inj. }
  assert (Hincl : incl (map N.to_nat l) (seq 0 (N.to_nat m + 1))).
  { intros k Hk. apply in_map_iff in Hk as (x & <- & Hx).
    apply in_seq. specialize (Hb x Hx). lia. }
  pose proof (NoDup_incl_length Hnd' Hincl) as H.
  rewrite length_map, length_seq in H. exact H.
Qed.

(** X5. When no item number is listed twice, a sequence has at most
    [length + 1] frame streams: the item numbers are distinct and none
    exceeds the length. *)
Theorem frame_count_at_most_length_plus_one
    (filename : string) (shape : nat * nat) (pf : option (ndarray -> ndarray))
    (dt : option dtype) (g : bool) (w w' : World) (self : ZVI.t) :
  ZVI.__init__ filename shape pf dt g w = (Return self, w') ->
  NoDup (ZVI._toc self) ->
  (List.length (ZVI._toc self) <= N.to_nat (ZVI.__len__ self) + 1)%nat.
Proof.
  intros Hinit Hnd. apply NoDup_bounded_length; [exact Hnd|].
  destruct (init_returned _ _ _ _ _ _ _ _ Hinit) as (ole & _ & _ & _ & _ & _ & ->).
  intros x. apply lmax_upper.
Qed.

Lemma frame_count_at_most_length_plus_one_witness :
  ZVI.__init__ "gap.zvi" (2, 1) None None false world0
    = (Return gap_zvi, opened "gap.zvi" world0)
  /\ NoDup (ZVI._toc gap_zvi)
  /\ (List.length (ZVI._toc gap_zvi) <= N.to_nat (ZVI.__len__ gap_zvi) + 1)%nat.
Proof.
  assert (Hnd : NoDup (ZVI._toc gap_zvi)).
  { simpl. repeat constructor; simpl; intuition discriminate. }
  split; [reflexivity|]. split; [exact Hnd|].
  exact (frame_count_at_most_length_plus_one "gap.zvi" (2, 1) None None false
           world0 (opened "gap.zvi" world0) gap_zvi eq_refl Hnd).
Defined.

Lemma lmax_first_naturals (k : nat) :
  lmax (map N.of_nat (seq 0 (S k))) = N.of_nat k.
Proof.
  set (l := map N.of_nat (seq 0 (S k))).
  assert (Hne : l <> []) by discriminate.
  pose proof (lmax_In l Hne) as Hin.
  apply in_map_iff in Hin as (i & Hi & Hs). apply in_seq in Hs.
  assert (Hk : In (N.of_nat k) l).
  { apply in_map, in_seq. lia. }
  apply lmax_upper in Hk. lia.
Qed.

(** X6. When the frame streams are numbered [0 .. n-1], each once and in
    any order, the length is [n - 1]: one less than the number of frame
    streams, so the highest-numbered frame is not below the length. *)
Theorem contiguous_numbering_length
    (filename : string) (shape : nat * nat) (pf : option (ndarray -> ndarray))
    (dt : option dtype) (g : bool) (w w' : World) (self : ZVI.t) (n : nat) :
  ZVI.__init__ filename shape pf dt g w = (Return self, w') ->
  Permutation (ZVI._toc self) (map N.of_nat (seq 0 n)) ->
  List.length (ZVI._toc self) = n
  /\ (N.to_nat (ZVI.__len__ self) + 1 = n)%nat
  /\ In (ZVI.__len__ self) (ZVI._toc self).
Proof.
  intros Hinit HP.
  destruct (init_returned _ _ _ _ _ _ _ _ Hinit) as (ole & _ & _ & _ & Hne & _ & ->).
  unfold ZVI.__len__. simpl in *.
  split; [rewrite (Permutation_length HP), length_map, length_seq; reflexivity|].
  destruct n as [|k].
  { apply Permutation_sym, Permutation_nil in HP. contradiction. }
  rewrite (lmax_Permutation _ _ HP), lmax_first_naturals.
  split; [lia|].
  apply (Permutation_in _ (Permutation_sym HP)), in_map, in_seq. lia.
Qed.

Lemma contiguous_numbering_length_witness :
  ZVI.__init__ "three.zvi" (2, 1) None None false contiguous_world
    = (Return contiguous_zvi, opened "three.zvi" contiguous_world)
  /\ Permutation (ZVI._toc contiguous_zvi) (map N.of_nat (seq 0 3))
  /\ List.length (ZVI._toc contiguous_zvi) = 3
  /\ ZVI.__len__ contiguous_zvi = 2%N.
Proof.
  assert (HP : Permutation (ZVI._toc contiguous_zvi) (map N.of_nat (seq 0 3))).
  { simpl. apply perm_swap. }
  split; [reflexivity|]. split; [exact HP|].
  split; [|reflexivity].
  exact (proj1 (contiguous_numbering_length "three.zvi" (2, 1) None None false
                  contiguous_world (opened "three.zvi" contiguous_world)
                  contiguous_zvi 3 eq_refl HP)).
Defined.

(** ** From stream bytes to samples *)

Lemma roll_back_nth {A} (x : list A) (i : nat) (d : A) :
  (i < List.length x)%nat ->
  nth i (roll x (-162)) d = nth ((i + 162) mod List.length x) x d.
Proof.
  intros Hi. rewrite roll_nth by assumption. f_equal.
  replace (Z.of_nat i - -162)%Z with (Z.of_nat (i + 162)) by lia.
  rewrite <- Nat2Z.inj_mod. apply Nat2Z.id.
Qed.

Lemma byte_to_N_inj (a b : byte) : Byte.to_N a = Byte.to_N b -> a = b.
Proof.
  intros H. pose proof (Byte.of_to_N a) as Ha. rewrite H, Byte.of_to_N in Ha.
  congruence.
Qed.

(** Byte strings of the same even length with the same samples are equal. *)
Lemma unpack_u16le_inj (bs bs' : list byte) (n : nat) :
  List.length bs = (2 * n)%nat -> List.length bs' = (2 * n)%nat ->
  unpack_u16le bs = unpack_u16le bs' -> bs = bs'.
Proof.
  revert bs bs'. induction n as [|n IH]; intros bs bs' Hl Hl' Hu.
  - destruct bs, bs'; try discriminate. reflexivity.
  - destruct bs as [|a [|b bs]]; try (simpl in Hl; lia).
    destruct bs' as [|a' [|b' bs']]; try (simpl in Hl'; lia).
    change (unpack_u16le (a :: b :: bs))
      with ((Byte.to_N a + 256 * Byte.to_N b)%N :: unpack_u16le bs) in Hu.
    change (unpack_u16le (a' :: b' :: bs'))
      with ((Byte.to_N a' + 256 * Byte.to_N b')%N :: unpack_u16le bs') in Hu.
    pose proof (f_equal (hd 0%N) Hu) as Hv. pose proof (f_equal (@tl N) Hu) as Hr.
    cbn [hd tl] in Hv, Hr.
    pose proof (Byte.to_N_bounded a). pose proof (Byte.to_N_bounded b).
    pose proof (Byte.to_N_bounded a'). pose proof (Byte.to_N_bounded b').
    assert (Hb : Byte.to_N b = Byte.to_N b')
      by (destruct (N.lt_trichotomy (Byte.to_N b) (Byte.to_N b')) as [?|[?|?]]; lia).
    assert (Ha : Byte.to_N a = Byte.to_N a') by lia.
    apply byte_to_N_inj in Ha, Hb. subst a' b'.
    f_equal. f_equal. apply IH; [simpl in Hl; lia | simpl in Hl'; lia | exact Hr].
Qed.

(** The decoder on a stream that is long enough, without a transform. *)
Lemma get_frame_decoded
    (filename : string) (shape : nat * nat) (dt : option dtype) (g : bool)
    (w w' w1 : World) (self : ZVI.t) (j : Z) (data : list byte) :
  ZVI.__init__ filename shape None dt g w = (Return self, w') ->
  ole_openstream (ZVI._ole self) (ZVI.stream_label j) = Some data ->
  (2 * (fst shape * snd shape) <= List.length data)%nat ->
  ZVI.get_frame self j w1
  = (Return {| frame_arr :=
                 {| nd_shape := (snd shape, fst shape); nd_dtype := uint16;
                    nd_data := roll (unpack_u16le
                                       (firstn (2 * (fst shape * snd shape)) data))
                                    (-162) |};
               frame_no := j |},
     logged (Call_openstream (ZVI.stream_label j)) w1).
Proof.
  intros Hinit Hdata Hlen.
  destruct (init_returned _ _ _ _ _ _ _ _ Hinit) as (ole & _ & _ & _ & _ & _ & ->).
  simpl in Hdata. rewrite get_frame_unfold. cbn [ZVI._ole ZVI._im_sz ZVI._dtype ZVI.process_func].
  rewrite Hdata, fromstring_enough by exact Hlen. simpl.
  unfold np_roll, np_asarray. simpl. rewrite cast_uint16_unpack. reflexivity.
Qed.

(** X7. Sample by sample: without a processing transform, on a stream of
    at least [2 * width * height] bytes, [get_frame(j)] returns the frame
    numbered [j] with [width * height] samples, and the sample at flat
    position [i] is made of the stream bytes [2k] (low) and [2k + 1]
    (high) for [k = (i + 162) mod (width * height)]. *)
Theorem get_frame_sample_formula
    (filename : string) (shape : nat * nat) (dt : option dtype) (g : bool)
    (w w' w1 : World) (self : ZVI.t) (j : Z) (data : list byte) :
  ZVI.__init__ filename shape None dt g w = (Return self, w') ->
  ole_openstream (ZVI._ole self) (ZVI.stream_label j) = Some data ->
  (2 * (fst shape * snd shape) <= List.length data)%nat ->
  exists fr,
    ZVI.get_frame self j w1
    = (Return fr, logged (Call_openstream (ZVI.stream_label j)) w1)
    /\ frame_no fr = j
    /\ List.length (nd_data (frame_arr fr)) = (fst shape * snd shape)%nat
    /\ forall i, (i < fst shape * snd shape)%nat ->
         let k := ((i + 162) mod (fst shape * snd shape))%nat in
         nth i (nd_data (frame_arr fr)) 0%N
         = (Byte.to_N (nth (2 * k) data x00)
            + 256 * Byte.to_N (nth (2 * k + 1) data x00))%N.
Proof.
  intros Hinit Hdata Hlen.
  rewrite (get_frame_decoded _ _ _ _ _ _ w1 _ _ _ Hinit Hdata Hlen).
  eexists. split; [reflexivity|]. split; [reflexivity|].
  cbn [frame_arr nd_data].
  set (n := (fst shape * snd shape)%nat) in *.
  assert (Hs : List.length (unpack_u16le (firstn (2 * n) data)) = n).
  { rewrite unpack_u16le_length, firstn_length_le by lia.
    rewrite Nat.mul_comm. apply Nat.div_mul. discriminate. }
  split; [rewrite roll_length; exact Hs|].
  intros i Hi. rewrite roll_back_nth by (rewrite Hs; exact Hi). rewrite Hs.
  assert (Hk : ((i + 162) mod n < n)%nat) by (apply Nat.mod_upper_bound; lia).
  set (k := ((i + 162) mod n)%nat) in *.
  rewrite unpack_u16le_nth by (rewrite firstn_length_le by lia; lia).
  rewrite !nth_firstn.
  destruct (Nat.ltb_spec (2 * k) (2 * n)); [|lia].
  destruct (Nat.ltb_spec (2 * k + 1) (2 * n)); [|lia].
  reflexivity.
Qed.

Lemma get_frame_sample_formula_witness :
  ZVI.__init__ "gap.zvi" (2, 1) None None false world0
    = (Return gap_zvi, opened "gap.zvi" world0)
  /\ ole_openstream (ZVI._ole gap_zvi) (ZVI.stream_label 1) = Some [x03; x00; x04; x01]
  /\ (2 * (fst (2, 1) * snd (2, 1)) <= List.length [x03; x00; x04; x01])%nat
  /\ exists fr,
       ZVI.get_frame gap_zvi 1 world0
       = (Return fr, logged (Call_openstream (ZVI.stream_label 1)) world0)
       /\ frame_no fr = 1%Z
       /\ List.length (nd_data (frame_arr fr)) = 2.
Proof.
  assert (Hlen : (2 * (fst (2, 1) * snd (2, 1))
                  <= List.length [x03; x00; x04; x01])%nat) by (simpl; lia).
  split; [reflexivity|]. split; [reflexivity|]. split; [exact Hlen|].
  destruct (get_frame_sample_formula "gap.zvi" (2, 1) None false world0
              (opened "gap.zvi" world0) world0 gap_zvi 1 [x03; x00; x04; x01]
              eq_refl eq_refl Hlen) as (fr & H1 & H2 & H3 & _).
  exists fr. split; [exact H1|]. split; [exact H2 | exact H3].
Defined.

(** X8. Without a processing transform, two streams that are long enough
    decode to the same array exactly when they agree on their first
    [2 * width * height] bytes: bytes beyond the image are ignored, and
    no two different images decode to the same array. *)
Theorem frames_equal_iff_image_bytes_equal
    (filename : string) (shape : nat * nat) (dt : option dtype) (g : bool)
    (w w' w1 w2 : World) (self : ZVI.t) (j1 j2 : Z) (d1 d2 : list byte) :
  ZVI.__init__ filename shape None dt g w = (Return self, w') ->
  ole_openstream (ZVI._ole self) (ZVI.stream_label j1) = Some d1 ->
  ole_openstream (ZVI._ole self) (ZVI.stream_label j2) = Some d2 ->
  (2 * (fst shape * snd shape) <= List.length d1)%nat ->
  (2 * (fst shape * snd shape) <= List.length d2)%nat ->
  exists f1 f2,
    fst (ZVI.get_frame self j1 w1) = Return f1
    /\ fst (ZVI.get_frame self j2 w2) = Return f2
    /\ (frame_arr f1 = frame_arr f2 <->
        firstn (2 * (fst shape * snd shape)) d1
        = firstn (2 * (fst shape * snd shape)) d2).
Proof.
  intros Hinit H1 H2 L1 L2.
  rewrite (get_frame_decoded _ _ _ _ _ _ w1 _ _ _ Hinit H1 L1).
  rewrite (get_frame_decoded _ _ _ _ _ _ w2 _ _ _ Hinit H2 L2).
  eexists. eexists. split; [reflexivity|]. split; [reflexivity|].
  cbn [frame_arr].
  split.
  - intros E. apply (f_equal nd_data) in E. cbn [nd_data] in E.
    apply (f_equal (fun x => roll x 162)) in E.
    rewrite !(roll_roll_inverse _ 162) in E.
    apply (unpack_u16le_inj _ _ (fst shape * snd shape));
      [apply firstn_length_le; exact L1 | apply firstn_length_le; exact L2 | exact E].
  - intros ->. reflexivity.
Qed.

Lemma frames_equal_iff_image_bytes_equal_witness :
  ZVI.__init__ "gap.zvi" (2, 1) None None false world0
    = (Return gap_zvi, opened "gap.zvi" world0)
  /\ ole_openstream (ZVI._ole gap_zvi) (ZVI.stream_label 0) = Some [x01; x00; x02; x00]
  /\ ole_openstream (ZVI._ole gap_zvi) (ZVI.stream_label 3)
     = Some [xff; xff; x00; x80; x07]
  /\ exists f1 f2,
       fst (ZVI.get_frame gap_zvi 0 world0) = Return f1
       /\ fst (ZVI.get_frame gap_zvi 3 world0) = Return f2
       /\ (frame_arr f1 = frame_arr f2 <->
           firstn (2 * (fst (2, 1) * snd (2, 1))) [x01; x00; x02; x00]
           = firstn (2 * (fst (2, 1) * snd (2, 1))) [xff; xff; x00; x80; x07]).
Proof.
  split; [reflexivity|]. split; [reflexivity|]. split; [reflexivity|].
  apply (frames_equal_iff_image_bytes_equal "gap.zvi" (2, 1) None false world0
           (opened "gap.zvi" world0) world0 world0 gap_zvi 0 3
           [x01; x00; x02; x00] [xff; xff; x00; x80; x07]);
    try reflexivity; simpl; lia.
Defined.

(** ** The processing transform *)

(** X9. The processing transform comes last and touches nothing else: a
    sequence constructed with the transform [f] makes the same call as one
    constructed without a transform, fails exactly when that one fails and
    with the same exception, and otherwise returns the same frame number
    with [f] applied to the array the other returns. *)
Theorem transform_applied_last
    (filename : string) (shape : nat * nat) (f : ndarray -> ndarray)
    (dt dt' : option dtype) (g g' : bool) (w wf wi w1 : World)
    (self_f self_id : ZVI.t) (j : Z) :
  ZVI.__init__ filename shape (Some f) dt g w = (Return self_f, wf) ->
  ZVI.__init__ filename shape None dt' g' w = (Return self_id, wi) ->
  snd (ZVI.get_frame self_f j w1) = snd (ZVI.get_frame self_id j w1)
  /\ fst (ZVI.get_frame self_f j w1)
     = match fst (ZVI.get_frame self_id j w1) with
       | Return fr => Return {| frame_arr := f (frame_arr fr);
                                frame_no := frame_no fr |}
       | Raise e => Raise e
       end.
Proof.
  intros Hf Hi.
  destruct (init_returned _ _ _ _ _ _ _ _ Hf) as (ole & Ho & _ & _ & _ & _ & ->).
  destruct (init_returned _ _ _ _ _ _ _ _ Hi) as (ole' & Ho' & _ & _ & _ & _ & ->).
  assert (ole' = ole) by congruence. subst ole'.
  rewrite !get_frame_unfold.
  cbn [ZVI._ole ZVI._im_sz ZVI._dtype ZVI.process_func fst snd].
  split; [reflexivity|].
  destruct (ole_openstream ole (ZVI.stream_label j)) as [data|]; [|reflexivity].
  destruct (Image_fromstring_I16L shape data); reflexivity.
Qed.

Lemma transform_applied_last_witness :
  ZVI.__init__ "gap.zvi" (2, 1) (Some negate) None false world0
    = (Return gap_zvi_negated, opened "gap.zvi" world0)
  /\ ZVI.__init__ "gap.zvi" (2, 1) None None false world0
     = (Return gap_zvi, opened "gap.zvi" world0)
  /\ fst (ZVI.get_frame gap_zvi_negated 1 world0)
     = Return {| frame_arr := {| nd_shape := (1, 2); nd_dtype := uint16;
                                 nd_data := [65532; 65275]%N |};
                 frame_no := 1 |}.
Proof.
  split; [reflexivity|]. split; [reflexivity|].
  rewrite (proj2 (transform_applied_last "gap.zvi" (2, 1) negate None None
                    false false world0 (opened "gap.zvi" world0)
                    (opened "gap.zvi" world0) world0 gap_zvi_negated gap_zvi 1
                    eq_refl eq_refl)).
  reflexivity.
Defined.

(** ** Names the index and the decoder do not share *)

(** X10. A negative frame number gives a stream name the index scan never
    counts: [get_frame(j)] for [j < 0] asks for [Item(-...)], which the
    pattern does not match. *)
Theorem negative_label_not_indexed (toc : list N) (j : Z) :
  (j < 0)%Z -> toc_step toc (ZVI.stream_label j) = Return toc.
Proof.
  intros Hj. destruct j as [|p|p]; try lia.
  unfold ZVI.stream_label, toc_step, Str.str. reflexivity.
Qed.

Lemma negative_label_not_indexed_witness :
  (-1 < 0)%Z
  /\ toc_step [5%N] ["Image"; "Item(-1)"; "Contents"] = Return [5%N].
Proof.
  split; [lia|].
  apply (negative_label_not_indexed [5%N] (-1)). lia.
Defined.

Lemma string_length_append (s t : string) :
  String.length (s ++ t) = (String.length s + String.length t)%nat.
Proof. induction s as [|c s IH]; simpl; [reflexivity | rewrite IH; reflexivity]. Qed.

(** X11. Item numbers are read as numbers: a second component with a
    zero in front of the digits is indexed under the value of the digits,
    although it is not the name the decoder asks for under that number. *)
Theorem zero_padded_item_indexed (toc : list N) (n : N) :
  toc_step toc ["Image"; ("Item(0" ++ Str.str (Z.of_N n) ++ ")")%string; "Contents"]
  = Return (toc ++ [n])
  /\ ["Image"; ("Item(0" ++ Str.str (Z.of_N n) ++ ")")%string; "Contents"]
     <> ZVI.stream_label (Z.of_N n).
Proof.
  destruct (str_of_N n) as [E Hne]. split.
  - unfold toc_step. simpl (negb _).
    assert (Hm : Str.re_match_Item ("Item(0" ++ Str.str (Z.of_N n) ++ ")")
                 = Some (String "0" (Str.str (Z.of_N n)))).
    { apply re_match_Item_spec. exists ""%string.
      split; [reflexivity|]. split; [discriminate|].
      simpl. rewrite E. apply all_digits_string_of_uint. }
    rewrite Hm. cbv iota beta. f_equal. f_equal. f_equal.
    change (Str.int (String "0" (Str.str (Z.of_N n))))
      with (Str.int (Str.str (Z.of_N n))).
    apply int_str.
  - unfold ZVI.stream_label. intros [= H].
    apply (f_equal String.length) in H.
    simpl in H. rewrite !string_length_append in H. simpl in H. lia.
Qed.

(** ** The display text *)


